(** * AE483 custom observer / LQR controller (controller_custom_lqr.c)

    A shallow embedding of the per-tick estimation and control pipeline of
    [src/controller_custom_lqr.c], and the properties of it that the
    specification states.

    - C [float] is IEEE-754 binary32: [spec_float] of the Standard Library with
      [prec = 24] and [emax = 128], every operation rounded once to nearest
      even, in the order in which the C expression is parsed.
    - [uint16_t] is [Z] with the wrap-around modulo 2^16 written out.
    - The file-scope [static] variables are one store indexed by the variable
      names; [powerSet] is an output, kept as a log of the calls made. *)

From Stdlib Require Import ZArith Bool List Lia String Ascii QArith Qround Qpower.
From Stdlib Require Import Floats.SpecFloat.
Import ListNotations.

Local Open Scope Z_scope.

(* ================================================================== *)
(** ** binary32 arithmetic *)

Module F32.

Definition prec : Z := 24.
Definition emax : Z := 128.

Definition float : Type := spec_float.

Definition add : float -> float -> float := SFadd prec emax.
Definition sub : float -> float -> float := SFsub prec emax.
Definition mul : float -> float -> float := SFmul prec emax.
Definition div : float -> float -> float := SFdiv prec emax.
Definition neg : float -> float := SFopp.

Definition zero : float := S754_zero false.

(** C's [==] on floats: [+0 == -0], and a NaN equals nothing. *)
Definition eqb : float -> float -> bool := SFeqb.
Definition ltb : float -> float -> bool := SFltb.

Definition is_finite (x : float) : bool :=
  match x with
  | S754_zero _ | S754_finite _ _ _ => true
  | S754_infinity _ | S754_nan => false
  end.

Definition is_zero (x : float) : bool :=
  match x with S754_zero _ => true | _ => false end.

(** A value that a [float] object can hold. *)
Definition valid (x : float) : bool := valid_binary prec emax x.

(** The exact value of a finite float, as a rational. *)
Definition to_Q (x : float) : option Q :=
  match x with
  | S754_zero _ => Some 0%Q
  | S754_finite s m e =>
      let a := (inject_Z (Zpos m) * Qpower 2 e)%Q in
      Some (if s then Qopp a else a)
  | S754_infinity _ | S754_nan => None
  end.

(** *** Decimal literals

    [of_decimal n k] is the float nearest to [n / 10^k]: one correctly
    rounded division of the two integers. *)
Definition of_decimal (n : Z) (k : nat) : float :=
  let d := S754_finite false (Pos.pow 10 (Pos.of_nat k)) 0 in
  match n with
  | Z0 => zero
  | Zpos p => match k with
              | O => binary_normalize prec emax n 0 false
              | S _ => div (S754_finite false p 0) d
              end
  | Zneg p => match k with
              | O => binary_normalize prec emax n 0 false
              | S _ => div (S754_finite true p 0) d
              end
  end.

Definition digit_of (c : ascii) : option Z :=
  let n := Z.of_nat (nat_of_ascii c) in
  if (48 <=? n) && (n <=? 57) then Some (n - 48) else None.

(** Reads the digits of a literal such as ["0.00239430"]: the integer made
    of all its digits, and how many of them follow the point. *)
Fixpoint parse_digits (s : string) (after_point : bool) (n : Z) (k : nat)
  : Z * nat :=
  match s with
  | EmptyString => (n, k)
  | String c s' =>
      match digit_of c with
      | Some d =>
          parse_digits s' after_point (10 * n + d)
                       (if after_point then S k else k)
      | None => parse_digits s' true n k
      end
  end.

Definition parse (s : string) : Z * nat := parse_digits s false 0 O.

Definition lit (s : string) : float :=
  let '(n, k) := parse s in of_decimal n k.

(** [within_half_ulp n k x]: [x] is a valid positive finite float [m * 2^e]
    with [|m * 2^e - n / 10^k| <= 2^e / 2], checked over the integers. *)
Definition within_half_ulp (n : Z) (k : nat) (x : float) : bool :=
  match x with
  | S754_finite false m e =>
      let t := 10 ^ Z.of_nat k in
      let '(lhs, rhs) :=
        match e with
        | Zneg p => (2 * Z.abs (Zpos m * t - n * 2 ^ Zpos p), t)
        | _ => (2 * Z.abs (Zpos m * 2 ^ e * t - n), 2 ^ e * t)
        end in
      valid x && (lhs <=? rhs)
  | _ => false
  end.

Definition lit_ok (s : string) : bool :=
  let '(n, k) := parse s in within_half_ulp n k (lit s).

(** *** Conversion to a 32-bit integer

    The C conversion discards the fraction (rounds toward zero).  Outside
    the range of [int32_t] the target's conversion instruction saturates,
    and takes a NaN to 0. *)
Definition INT32_MAX : Z := 2147483647.
Definition INT32_MIN : Z := -2147483648.

Definition truncate (x : float) : Z :=
  match x with
  | S754_finite s m e =>
      let a := match e with
               | Zneg p => Z.shiftr (Zpos m) (Zpos p)
               | _ => Z.shiftl (Zpos m) e
               end in
      if s then - a else a
  | _ => 0
  end.

Definition to_int32 (x : float) : Z :=
  match x with
  | S754_nan => 0
  | S754_zero _ => 0
  | S754_infinity s => if s then INT32_MIN else INT32_MAX
  | S754_finite _ _ _ => Z.max INT32_MIN (Z.min INT32_MAX (truncate x))
  end.

End F32.

Abbreviation float := F32.float.
Abbreviation lit := F32.lit.

Arguments F32.lit : simpl never.

Declare Scope f32_scope.
Delimit Scope f32_scope with f32.
Infix "+" := F32.add : f32_scope.
Infix "-" := F32.sub : f32_scope.
Infix "*" := F32.mul : f32_scope.
Infix "/" := F32.div : f32_scope.
Notation "- x" := (F32.neg x) : f32_scope.

(* ================================================================== *)
(** ** The firmware's types (stabilizer_types.h), as far as the code reads them *)

Module Vec3.
Record t : Type := mk { x : float; y : float; z : float }.
End Vec3.

Module Attitude.
Record t : Type := mk { roll : float; pitch : float; yaw : float }.
End Attitude.

(** [stab_mode_t] *)
Inductive stab_mode_t : Type := modeDisable | modeAbs | modeVelocity.

Definition stab_mode_eqb (a b : stab_mode_t) : bool :=
  match a, b with
  | modeDisable, modeDisable | modeAbs, modeAbs
  | modeVelocity, modeVelocity => true
  | _, _ => false
  end.

Module Mode.
Record t : Type := mk { x : stab_mode_t; y : stab_mode_t; z : stab_mode_t }.
End Mode.

Module Setpoint.
Record t : Type := mk { position : Vec3.t; mode : Mode.t }.
End Setpoint.

Module SensorData.
Record t : Type := mk { gyro : Vec3.t; acc : Vec3.t }.
End SensorData.

Module State.
Record t : Type :=
  mk { position : Vec3.t; attitude : Attitude.t; velocity : Vec3.t }.
End State.

Module Tof.
Record t : Type := mk { distance : float }.
End Tof.

Module Flow.
Record t : Type := mk { dpixelx : float; dpixely : float }.
End Flow.

Abbreviation setpoint_t := Setpoint.t.
Abbreviation sensorData_t := SensorData.t.
Abbreviation state_t := State.t.
Abbreviation tofMeasurement_t := Tof.t.
Abbreviation flowMeasurement_t := Flow.t.

(* ================================================================== *)
(** ** What the code takes from outside the file *)

(** The single-precision cosine and sine of the C library, and the rate
    macro and rate constant of stabilizer_types.h. *)
Class Platform : Type := {
  cosf : float -> float;
  sinf : float -> float;
  ATTITUDE_RATE : Z;
  RATE_DO_EXECUTE : Z -> Z -> bool
}.

(** Modelled from the spec: [radians] of the firmware's math3d.h, which is
    not among the sources.  The spec has the gyro rates and the external
    attitude "converted to radians"; the conversion is one multiplication by
    the single-precision quotient of pi and 180. *)
Definition M_PI_F : float := lit "3.14159265358979323846".

Definition radians (degrees : float) : float :=
  ((M_PI_F / lit "180.0") * degrees)%f32.

(** Modelled from the spec: [limitUint16] of the firmware's num.h, which is
    not among the sources.  The spec has each raw command clamped "to the
    valid unsigned command range (values outside range are saturated, not
    wrapped or rejected)", the range being 0 to 65535. *)
Definition UINT16_MAX : Z := 65535.

Definition limitUint16 (value : Z) : Z :=
  if value >? UINT16_MAX then UINT16_MAX
  else if value <? 0 then 0
  else value.

(* ================================================================== *)
(** ** The file-scope variables *)

(** The [static float] variables that the code assigns. *)
Inductive fvar : Type :=
| tof_distance | flow_dpixelx | flow_dpixely
| o_x | o_y | o_z | psi | theta | phi | v_x | v_y | v_z | w_x | w_y | w_z
| o_x_des | o_y_des | o_z_des
| tau_x | tau_y | tau_z | f_z
| n_x | n_y | r | a_z
| n_x_err | n_y_err | r_err.

(** The [static uint16_t] variables. *)
Inductive uvar : Type :=
| tof_count | flow_count | m_1 | m_2 | m_3 | m_4.

(** The [static bool] parameters. *)
Inductive bvar : Type := use_observer | reset_observer.

Definition fvar_idx (v : fvar) : positive :=
  match v with
  | tof_distance => 1 | flow_dpixelx => 2 | flow_dpixely => 3
  | o_x => 4 | o_y => 5 | o_z => 6 | psi => 7 | theta => 8 | phi => 9
  | v_x => 10 | v_y => 11 | v_z => 12 | w_x => 13 | w_y => 14 | w_z => 15
  | o_x_des => 16 | o_y_des => 17 | o_z_des => 18
  | tau_x => 19 | tau_y => 20 | tau_z => 21 | f_z => 22
  | n_x => 23 | n_y => 24 | r => 25 | a_z => 26
  | n_x_err => 27 | n_y_err => 28 | r_err => 29
  end%positive.

Definition uvar_idx (v : uvar) : positive :=
  match v with
  | tof_count => 1 | flow_count => 2
  | m_1 => 3 | m_2 => 4 | m_3 => 5 | m_4 => 6
  end%positive.

Definition bvar_eqb (a b : bvar) : bool :=
  match a, b with
  | use_observer, use_observer | reset_observer, reset_observer => true
  | _, _ => false
  end.

Definition fvar_eqb (a b : fvar) : bool := Pos.eqb (fvar_idx a) (fvar_idx b).
Definition uvar_eqb (a b : uvar) : bool := Pos.eqb (uvar_idx a) (uvar_idx b).

(** One call of [powerSet]. *)
Definition power_t : Type := (Z * Z * Z * Z)%type.

(** The store: the value of every variable, and the calls of [powerSet] made
    so far, the latest first. *)
Record world : Type := mkWorld {
  F : fvar -> float;
  U : uvar -> Z;
  B : bvar -> bool;
  power : list power_t
}.

Definition setF (v : fvar) (a : float) (w : world) : world :=
  mkWorld (fun v' => if fvar_eqb v v' then a else F w v') (U w) (B w) (power w).

Definition setU (v : uvar) (a : Z) (w : world) : world :=
  mkWorld (F w) (fun v' => if uvar_eqb v v' then a else U w v') (B w) (power w).

Definition setB (v : bvar) (a : bool) (w : world) : world :=
  mkWorld (F w) (U w) (fun v' => if bvar_eqb v v' then a else B w v') (power w).

Definition powerSet (a b c d : Z) (w : world) : world :=
  mkWorld (F w) (U w) (B w) ((a, b, c, d) :: power w).

(** [x++] on a [uint16_t]. *)
Definition incr16 (n : Z) : Z := (n + 1) mod 65536.

Notation "w '.[' v ']'" := (F w v) (at level 1, left associativity, format "w .[ v ]").
Notation "w '<|' v ':=' a '|>'" := (setF v a%f32 w)
  (at level 1, left associativity, format "w  <| v  :=  a |>").

(** The initialisers of the file. *)
Definition init_world : world :=
  mkWorld (fun _ => F32.zero) (fun _ => 0) (fun _ => false) [].

(** The constants of the file: [static float] variables that nothing assigns
    and nothing outside the file can reach. *)
Definition k_flow : float := lit "4.09255568".
Definition g : float := lit "9.81".
Definition dt : float := lit "0.002".
Definition o_z_eq : float := lit "0.5".

(* ================================================================== *)
(** ** The code *)

Section Code.

Context {P : Platform}.

Local Open Scope f32_scope.

(** [ae483UpdateWithTOF] *)
Definition ae483UpdateWithTOF (tof : tofMeasurement_t) (w : world) : world :=
  let w := w <| tof_distance := Tof.distance tof |> in
  let w := setU tof_count (incr16 (U w tof_count)) w in
  w.

(** [ae483UpdateWithFlow] *)
Definition ae483UpdateWithFlow (flow : flowMeasurement_t) (w : world) : world :=
  let w := w <| flow_dpixelx := Flow.dpixelx flow |> in
  let w := w <| flow_dpixely := Flow.dpixely flow |> in
  let w := setU flow_count (incr16 (U w flow_count)) w in
  w.

(** Lines 158-161: desired position. *)
Definition desired_position (setpoint : setpoint_t) (w : world) : world :=
  let w := w <| o_x_des := Vec3.x (Setpoint.position setpoint) |> in
  let w := w <| o_y_des := Vec3.y (Setpoint.position setpoint) |> in
  let w := w <| o_z_des := Vec3.z (Setpoint.position setpoint) |> in
  w.

(** Lines 163-170: measurements. *)
Definition measurements (sensors : sensorData_t) (w : world) : world :=
  let w := w <| w_x := radians (Vec3.x (SensorData.gyro sensors)) |> in
  let w := w <| w_y := radians (Vec3.y (SensorData.gyro sensors)) |> in
  let w := w <| w_z := radians (Vec3.z (SensorData.gyro sensors)) |> in
  let w := w <| a_z := g * Vec3.z (SensorData.acc sensors) |> in
  let w := w <| n_x := w.[flow_dpixelx] |> in
  let w := w <| n_y := w.[flow_dpixely] |> in
  let w := w <| r := w.[tof_distance] |> in
  w.

(** Lines 173-182: the body of [if (reset_observer)]. *)
Definition reset_body (w : world) : world :=
  let w := w <| o_x := lit "0.0" |> in
  let w := w <| o_y := lit "0.0" |> in
  let w := w <| o_z := lit "0.0" |> in
  let w := w <| psi := lit "0.0" |> in
  let w := w <| theta := lit "0.0" |> in
  let w := w <| phi := lit "0.0" |> in
  let w := w <| v_x := lit "0.0" |> in
  let w := w <| v_y := lit "0.0" |> in
  let w := w <| v_z := lit "0.0" |> in
  let w := setB reset_observer false w in
  w.

(** Lines 188-203: the branch of [if (use_observer)]. *)
Definition observer_body (w : world) : world :=
  let w := w <| n_x_err := k_flow * ((w.[v_x] / o_z_eq) - w.[w_y]) - w.[n_x] |> in
  let w := w <| n_y_err := k_flow * (w.[w_x] + (w.[v_y] / o_z_eq)) - w.[n_y] |> in
  let w := w <| r_err := w.[o_z] - w.[r] |> in
  let w := w <| o_x := w.[o_x] + dt * w.[v_x] |> in
  let w := w <| o_y := w.[o_y] + dt * w.[v_y] |> in
  let w := w <| o_z := w.[o_z] + dt * (w.[v_z] - lit "3.524731" * w.[r_err]) |> in
  let w := w <| psi := w.[psi] + dt * w.[w_z] |> in
  let w := w <| theta := w.[theta] + dt * (w.[w_y] - lit "0.029925" * w.[n_x_err]) |> in
  let w := w <| phi := w.[phi] + dt * (w.[w_x] - ((- lit "0.024252") * w.[n_y_err])) |> in
  let w := w <| v_x := w.[v_x] + dt * (g * w.[theta] - lit "0.322134" * w.[n_x_err]) |> in
  let w := w <| v_y := w.[v_y] + dt * ((- g) * w.[phi] - lit "0.317070" * w.[n_y_err]) |> in
  let w := w <| v_z := w.[v_z] + dt * (w.[a_z] - g - lit "5.676619" * w.[r_err]) |> in
  w.

(** Lines 207-215: the [else] branch. *)
Definition passthrough_body (state : state_t) (w : world) : world :=
  let vx := Vec3.x (State.velocity state) in
  let vy := Vec3.y (State.velocity state) in
  let vz := Vec3.z (State.velocity state) in
  let w := w <| o_x := Vec3.x (State.position state) |> in
  let w := w <| o_y := Vec3.y (State.position state) |> in
  let w := w <| o_z := Vec3.z (State.position state) |> in
  let w := w <| psi := radians (Attitude.yaw (State.attitude state)) |> in
  let w := w <| theta := - radians (Attitude.pitch (State.attitude state)) |> in
  let w := w <| phi := radians (Attitude.roll (State.attitude state)) |> in
  let w := w <| v_x :=
    vx * cosf w.[psi] * cosf w.[theta] + vy * sinf w.[psi] * cosf w.[theta]
    - vz * sinf w.[theta] |> in
  let w := w <| v_y :=
    vx * (sinf w.[phi] * sinf w.[theta] * cosf w.[psi] - sinf w.[psi] * cosf w.[phi])
    + vy * (sinf w.[phi] * sinf w.[psi] * sinf w.[theta] + cosf w.[phi] * cosf w.[psi])
    + vz * sinf w.[phi] * cosf w.[theta] |> in
  let w := w <| v_z :=
    vx * (sinf w.[phi] * sinf w.[psi] + sinf w.[theta] * cosf w.[phi] * cosf w.[psi])
    + vy * ((- sinf w.[phi]) * cosf w.[psi] + sinf w.[psi] * sinf w.[theta] * cosf w.[phi])
    + vz * cosf w.[phi] * cosf w.[theta] |> in
  w.

(** Lines 227-230: the control effort. *)
Definition effort_body (w : world) : world :=
  let w := w <| tau_x :=
    lit "0.00239430" * (w.[o_y] - w.[o_y_des]) - lit "0.00346463" * w.[phi]
    + lit "0.00135445" * w.[v_y] - lit "0.00047651" * w.[w_x] |> in
  let w := w <| tau_y :=
    (- lit "0.00223966") * (w.[o_x] - w.[o_x_des]) - lit "0.00734151" * w.[theta]
    - lit "0.00186963" * w.[v_x] - lit "0.00129356" * w.[w_y] |> in
  let w := w <| tau_z :=
    (- lit "0.00164210") * w.[psi] - lit "0.00039822" * w.[w_z] |> in
  let w := w <| f_z :=
    (- lit "0.11471886") * (w.[o_z] - w.[o_z_des]) - lit "0.09147906" * w.[v_z]
    + lit "0.35217900" |> in
  w.

(** Lines 232-238: the motor power commands, and their application.  The
    argument of [limitUint16] is a [float] expression: C converts it to the
    integer type of the parameter. *)
Definition mix_body (w : world) : world :=
  let w := setU m_1 (limitUint16 (F32.to_int32 (
    (- lit "3706927.3") * w.[tau_x] - lit "3706927.3" * w.[tau_y]
    - lit "38218981.7" * w.[tau_z] + lit "122328.6" * w.[f_z]))) w in
  let w := setU m_2 (limitUint16 (F32.to_int32 (
    (- lit "3706927.3") * w.[tau_x] + lit "3706927.3" * w.[tau_y]
    + lit "38218981.7" * w.[tau_z] + lit "122328.6" * w.[f_z]))) w in
  let w := setU m_3 (limitUint16 (F32.to_int32 (
    lit "3706927.3" * w.[tau_x] + lit "3706927.3" * w.[tau_y]
    - lit "38218981.7" * w.[tau_z] + lit "122328.6" * w.[f_z]))) w in
  let w := setU m_4 (limitUint16 (F32.to_int32 (
    lit "3706927.3" * w.[tau_x] - lit "3706927.3" * w.[tau_y]
    + lit "38218981.7" * w.[tau_z] + lit "122328.6" * w.[f_z]))) w in
  let w := powerSet (U w m_1) (U w m_2) (U w m_3) (U w m_4) w in
  w.

(** Lines 227-238: the [else] branch of [if (setpoint->mode.z == modeDisable)]. *)
Definition control_body (w : world) : world :=
  let w := effort_body w in
  let w := mix_body w in
  w.

(** Lines 172-216: reset, then the state estimates. *)
Definition estimate (state : state_t) (w : world) : world :=
  let w := if B w reset_observer then reset_body w else w in
  let w := if B w use_observer then observer_body w
           else passthrough_body state w in
  w.

(** Lines 218-239: the motor power commands. *)
Definition actuate (setpoint : setpoint_t) (w : world) : world :=
  if stab_mode_eqb (Mode.z (Setpoint.mode setpoint)) modeDisable
  then powerSet 0 0 0 0 w
  else control_body w.

(** [controllerAE483]; its [control] argument is never used. *)
Definition controllerAE483 (setpoint : setpoint_t) (sensors : sensorData_t)
           (state : state_t) (tick : Z) (w : world) : world :=
  if RATE_DO_EXECUTE ATTITUDE_RATE tick then
    let w := desired_position setpoint w in
    let w := measurements sensors w in
    let w := estimate state w in
    let w := actuate setpoint w in
    w
  else w.

End Code.

(* ================================================================== *)
(** ** A platform to run the code on *)

(** The firmware's rates (1000 Hz main loop, 500 Hz attitude rate), and the
    cosine and sine at angles so small that the nearest floats to them are 1
    and the angle itself.  The closed examples below use it at the angle 0
    only. *)
Definition RATE_MAIN_LOOP : Z := 1000.

#[export] Instance small_angle : Platform := {|
  cosf := fun _ => lit "1.0";
  sinf := fun a => a;
  ATTITUDE_RATE := 500;
  RATE_DO_EXECUTE := fun rate tick => (tick mod (RATE_MAIN_LOOP / rate)) =? 0
|}.

Definition vec0 : Vec3.t := Vec3.mk F32.zero F32.zero F32.zero.
Definition att0 : Attitude.t := Attitude.mk F32.zero F32.zero F32.zero.
Definition state0 : state_t := State.mk vec0 att0 vec0.
Definition sensors0 : sensorData_t := SensorData.mk vec0 vec0.
Definition mode_of (m : stab_mode_t) : Mode.t := Mode.mk m m m.
Definition setpoint_at (p : Vec3.t) (m : stab_mode_t) : setpoint_t :=
  Setpoint.mk p (mode_of m).

(* ================================================================== *)
(** ** What the specification speaks of *)

(** The nine integrated state variables, and the twelve fields of the state
    estimate. *)
Definition integrated : list fvar :=
  [o_x; o_y; o_z; psi; theta; phi; v_x; v_y; v_z].

Definition is_integrated (v : fvar) : bool := existsb (fvar_eqb v) integrated.

Definition estimate_vars : list fvar := integrated ++ [w_x; w_y; w_z].

Definition estimate_of (w : world) : list float := map (F w) estimate_vars.

(** The control effort and the motor commands kept for telemetry. *)
Definition effort_vars : list fvar := [tau_x; tau_y; tau_z; f_z].
Definition motor_vars : list uvar := [m_1; m_2; m_3; m_4].

Definition effort_of (w : world) : list float := map (F w) effort_vars.

(** Two stores that hold the same value in every variable, and the same log
    of [powerSet] calls. *)
Definition weq (w1 w2 : world) : Prop :=
  (forall v, F w1 v = F w2 v) /\ (forall v, U w1 v = U w2 v) /\
  (forall v, B w1 v = B w2 v) /\ power w1 = power w2.

(** The store with the nine integrated variables at zero and the reset flag
    down, everything else as in [w]. *)
Definition zeroed (w : world) : world :=
  mkWorld (fun v => if is_integrated v then F32.zero else F w v)
          (U w)
          (fun b => if bvar_eqb reset_observer b then false else B w b)
          (power w).

(** *** The mixer, in the words of the specification

    A fixed 4x4 matrix applied to (torque_x, torque_y, torque_z, thrust), each
    raw value then saturated to the range of the commands. *)
Definition mixing_matrix : list (list float) :=
  let a := lit "3706927.3" in
  let b := lit "38218981.7" in
  let c := lit "122328.6" in
  [ [F32.neg a; F32.neg a; F32.neg b; c];
    [F32.neg a; a;         b;         c];
    [a;         a;         F32.neg b; c];
    [a;         F32.neg a; b;         c] ].

(** A row applied to a vector: the products, summed from left to right. *)
Definition apply_row (row e : list float) : float :=
  match map (fun ax => F32.mul (fst ax) (snd ax)) (combine row e) with
  | [] => F32.zero
  | p :: ps => fold_left F32.add ps p
  end.

Definition raw_command (i : nat) (e : list float) : float :=
  apply_row (nth i mixing_matrix []) e.

(** The nearest value of the command range 0..65535 to a raw value: the lower
    boundary below the range, the upper boundary above it, and the integer
    part of the value inside it.  Nothing is said of a raw value that is not
    a number. *)
Definition saturate (raw : float) : option Z :=
  match raw with
  | S754_nan => None
  | S754_infinity s => Some (if s then 0 else UINT16_MAX)
  | _ =>
      match F32.to_Q raw with
      | Some q =>
          Some (if negb (Qle_bool 0 q) then 0
                else if negb (Qle_bool q (inject_Z UINT16_MAX)) then UINT16_MAX
                else Qfloor q)
      | None => None
      end
  end.

(** *** The observer, in the words of the specification *)

(** The flow residuals as the specification writes them: the y residual with
    [v_y] in place of [v_x] and [w_x] in place of [w_y]. *)
Definition flow_residual_x (vx wy nx : float) : float :=
  (k_flow * ((vx / o_z_eq) - wy) - nx)%f32.

Definition flow_residual_y_spec (vy wx ny : float) : float :=
  (k_flow * ((vy / o_z_eq) - wx) - ny)%f32.

(** The derivative of [v_x] that a forward-Euler step takes: on the pitch
    [theta] of the previous tick. *)
Definition v_x_forward_euler (w : world) : float :=
  (w.[v_x] + dt * (g * w.[theta]
     - lit "0.322134" * flow_residual_x w.[v_x] w.[w_y] w.[n_x]))%f32.

Section SpecDefs.
Context {P : Platform}.
Local Open Scope f32_scope.

(** The estimate of pass-through mode, from the external state and the gyro
    alone. *)
Definition passthrough_estimate (state : state_t) (sensors : sensorData_t)
  : list float :=
  let vx := Vec3.x (State.velocity state) in
  let vy := Vec3.y (State.velocity state) in
  let vz := Vec3.z (State.velocity state) in
  let psi' := radians (Attitude.yaw (State.attitude state)) in
  let theta' := - radians (Attitude.pitch (State.attitude state)) in
  let phi' := radians (Attitude.roll (State.attitude state)) in
  [ Vec3.x (State.position state);
    Vec3.y (State.position state);
    Vec3.z (State.position state);
    psi'; theta'; phi';
    vx * cosf psi' * cosf theta' + vy * sinf psi' * cosf theta'
    - vz * sinf theta';
    vx * (sinf phi' * sinf theta' * cosf psi' - sinf psi' * cosf phi')
    + vy * (sinf phi' * sinf psi' * sinf theta' + cosf phi' * cosf psi')
    + vz * sinf phi' * cosf theta';
    vx * (sinf phi' * sinf psi' + sinf theta' * cosf phi' * cosf psi')
    + vy * ((- sinf phi') * cosf psi' + sinf psi' * sinf theta' * cosf phi')
    + vz * cosf phi' * cosf theta';
    radians (Vec3.x (SensorData.gyro sensors));
    radians (Vec3.y (SensorData.gyro sensors));
    radians (Vec3.z (SensorData.gyro sensors)) ].

(** *** Runs: sensor callbacks and ticks, in any order *)

Inductive event : Type :=
| EvTOF (tof : tofMeasurement_t)
| EvFlow (flow : flowMeasurement_t)
| EvTick (setpoint : setpoint_t) (sensors : sensorData_t)
         (state : state_t) (tick : Z).

Definition step (e : event) (w : world) : world :=
  match e with
  | EvTOF tof => ae483UpdateWithTOF tof w
  | EvFlow flow => ae483UpdateWithFlow flow w
  | EvTick setpoint sensors state tick =>
      controllerAE483 setpoint sensors state tick w
  end.

Fixpoint run (es : list event) (w : world) : world :=
  match es with
  | [] => w
  | e :: es' => run es' (step e w)
  end.

(** No tick of the run has its z-axis mode enabled. *)
Definition disabled_event (e : event) : bool :=
  match e with
  | EvTick setpoint _ _ _ =>
      stab_mode_eqb (Mode.z (Setpoint.mode setpoint)) modeDisable
  | _ => true
  end.

End SpecDefs.

(* ================================================================== *)
(** ** Inputs of the closed examples *)

Definition sp0 : setpoint_t := setpoint_at vec0 modeAbs.
Definition sp_disabled : setpoint_t := setpoint_at vec0 modeDisable.

(** The variables that are zero when the vehicle is at rest. *)
Definition rest_vars : list fvar :=
  [psi; theta; phi; v_x; v_y; v_z; w_x; w_y; w_z].

(** Observer mode, one optical-flow sample with [dpixelx = 1] recorded. *)
Definition w_obs_flow : world :=
  setB use_observer true
       (ae483UpdateWithFlow (Flow.mk (lit "1.0") F32.zero) init_world).

(** Pass-through mode, the previous estimate at [o_x = 1]; an external state
    at [x = 2]. *)
Definition w_prev_x1 : world := init_world <| o_x := lit "1.0" |>.

Definition state_x2 : state_t :=
  State.mk (Vec3.mk (lit "2.0") F32.zero F32.zero) att0 vec0.

(** A gyro that reads one degree per second about x. *)
Definition sensors_roll_rate : sensorData_t :=
  SensorData.mk (Vec3.mk (lit "1.0") F32.zero F32.zero) vec0.

(** Observer mode; the same with the estimate at [o_z = 1]; the same again
    with the reset flag up. *)
Definition w_obs : world := setB use_observer true init_world.

Definition w_obs_z1 : world :=
  setB use_observer true (init_world <| o_z := lit "1.0" |>).

Definition w_obs_z1_reset : world := setB reset_observer true w_obs_z1.

(** An estimate that is not a number. *)
Definition w_nan : world := init_world <| o_x := S754_nan |>.

(** A range sample, and the store after 65535 of them. *)
Definition tof_sample : tofMeasurement_t := Tof.mk (lit "0.5").

Definition w_tof_65535 : world :=
  Pos.iter (ae483UpdateWithTOF tof_sample) init_world 65535.

(** At rest at the trim altitude, the setpoint at the position. *)
Definition w_hover : world :=
  let w := init_world <| o_x := lit "1.5" |> in
  let w := w <| o_y := lit "2.5" |> in
  let w := w <| o_z := o_z_eq |> in
  let w := w <| o_x_des := lit "1.5" |> in
  let w := w <| o_y_des := lit "2.5" |> in
  let w := w <| o_z_des := o_z_eq |> in
  w.

Definition sp_hover : setpoint_t :=
  setpoint_at (Vec3.mk (lit "1.5") (lit "2.5") o_z_eq) modeAbs.

(** A roll torque far beyond what the motors can give. *)
Definition w_big_torque : world :=
  (init_world <| tau_x := lit "1.0" |>) <| f_z := lit "0.35217900" |>.

(* ================================================================== *)
(** ** The remaining functions of the file *)

(** The measurements of the extension points, with the fields that the
    comments of the source list. *)
Module Distance.
Record t : Type :=
  mk { anchorId : Z; x : float; y : float; z : float; distance : float }.
End Distance.

Module Quat.
Record t : Type := mk { x : float; y : float; z : float; w : float }.
End Quat.

Module Pose.
Record t : Type := mk { x : float; y : float; z : float; quat : Quat.t }.
End Pose.

(** [ae483UpdateWithDistance], [ae483UpdateWithPosition],
    [ae483UpdateWithPose], [ae483UpdateWithData]: bodies made of comments. *)
Definition ae483UpdateWithDistance (meas : Distance.t) (w : world) : world := w.

Definition ae483UpdateWithPosition (meas : Vec3.t) (w : world) : world := w.

Definition ae483UpdateWithPose (meas : Pose.t) (w : world) : world := w.

Definition ae483UpdateWithData (data : Vec3.t) (w : world) : world := w.

(** [controllerAE483Init] does nothing; [controllerAE483Test] always passes. *)
Definition controllerAE483Init (w : world) : world := w.

Definition controllerAE483Test : bool := true.

(* ================================================================== *)
(** ** Runs, counted *)

Section RunDefs.

Context {P : Platform}.

(** The ticks of a run on which the body of [controllerAE483] executes. *)
Definition executes (e : event) : bool :=
  match e with
  | EvTick _ _ _ tick => RATE_DO_EXECUTE ATTITUDE_RATE tick
  | _ => false
  end.

Definition is_tof (e : event) : bool :=
  match e with EvTOF _ => true | _ => false end.

Definition is_flow (e : event) : bool :=
  match e with EvFlow _ => true | _ => false end.

Definition count (f : event -> bool) (es : list event) : Z :=
  Z.of_nat (List.length (filter f es)).

(** A run on the platform [small_angle]: tick 0 executes, tick 1 does not. *)
Definition es_sample : list event :=
  [ EvTOF tof_sample;
    EvTick sp_hover sensors0 state0 0;
    EvFlow (Flow.mk (lit "1.0") F32.zero);
    EvTick sp_disabled sensors0 state0 1;
    EvTOF tof_sample ].

(** A run in which no tick executes. *)
Definition es_quiet : list event :=
  [ EvTOF tof_sample; EvTick sp_hover sensors0 state0 1;
    EvFlow (Flow.mk (lit "1.0") F32.zero) ].

End RunDefs.

(** Every [uint16_t] variable holds a value of its type. *)
Definition u16_ok (w : world) : Prop := forall v, 0 <= U w v < 65536.

(** A call of [powerSet] whose four arguments are in the range of the
    commands. *)
Definition cmd_ok (c : power_t) : Prop :=
  let '(a, b, c', d) := c in
  (0 <= a <= UINT16_MAX) /\ (0 <= b <= UINT16_MAX) /\
  (0 <= c' <= UINT16_MAX) /\ (0 <= d <= UINT16_MAX).

(** [r] is the number [x]: [x] itself, or a zero of either sign when [x] is
    a zero. *)
Definition same_number (x r : float) : Prop :=
  match x with
  | S754_zero _ => F32.is_zero r = true
  | _ => r = x
  end.

(** An external state at rest attitude, moving. *)
Definition state_moving : state_t :=
  State.mk vec0 att0
           (Vec3.mk (lit "1.5") (F32.neg (lit "2.0")) (lit "0.25")).

(** Level, at the desired x and y, half a metre under the desired
    altitude. *)
Definition w_below : world :=
  let w := init_world <| o_x := lit "1.5" |> in
  let w := w <| o_x_des := lit "1.5" |> in
  let w := w <| o_z := o_z_eq |> in
  let w := w <| o_z_des := lit "1.0" |> in
  w.

(* ================================================================== *)
(** * Properties *)

(** ** binary32 facts *)

Module F32Facts.

(** The literals of the file are the floats nearest to their decimal
    values. *)
Lemma literals_nearest :
  forallb F32.lit_ok
    [ "4.09255568"; "9.81"; "0.002"; "0.5";
      "3.524731"; "0.029925"; "0.024252"; "0.322134"; "0.317070"; "5.676619";
      "0.00239430"; "0.00346463"; "0.00135445"; "0.00047651";
      "0.00223966"; "0.00734151"; "0.00186963"; "0.00129356";
      "0.00164210"; "0.00039822";
      "0.11471886"; "0.09147906"; "0.35217900";
      "3706927.3"; "38218981.7"; "122328.6";
      "3.14159265358979323846"; "180.0"; "1.0" ]%string = true.
Proof. vm_compute. reflexivity. Qed.

Lemma lit_zero : lit "0.0" = F32.zero.
Proof. reflexivity. Qed.

Lemma shl_align_same m e : shl_align m e e = (m, e).
Proof. unfold shl_align. rewrite Z.sub_diag. reflexivity. Qed.

(** [x - x] is [+0] for every finite [x]. *)
Lemma sub_self x : F32.is_finite x = true -> F32.sub x x = F32.zero.
Proof.
  destruct x as [s | s | | s m e]; cbn; try discriminate; intros _.
  - destruct s; reflexivity.
  - unfold F32.sub, SFsub. rewrite Z.min_id, shl_align_same. cbn [fst].
    rewrite Z.sub_diag. reflexivity.
Qed.

(** [x - y] is [x + (-y)], also at the zeros, the infinities and NaN. *)
Lemma sub_add_neg x y : F32.sub x y = F32.add x (F32.neg y).
Proof.
  destruct x as [sx | sx | | sx mx ex], y as [sy | sy | | sy my ey]; cbn;
    try reflexivity; destruct sx, sy; reflexivity.
Qed.

Lemma binary_round_aux_opp s m e l :
  binary_round_aux F32.prec F32.emax (negb s) m e l =
  SFopp (binary_round_aux F32.prec F32.emax s m e l).
Proof.
  unfold binary_round_aux.
  destruct (shr_fexp _ _ m e l) as [mrs' e'].
  destruct (shr_fexp _ _ _ e' loc_Exact) as [mrs'' e''].
  destruct (shr_m mrs''); try reflexivity.
  destruct (e'' <=? _); reflexivity.
Qed.

(** Rounding to nearest even is symmetric: [(-x) * y] is [-(x * y)]. *)
Lemma mul_neg_l x y : F32.mul (F32.neg x) y = F32.neg (F32.mul x y).
Proof.
  destruct x as [sx | sx | | sx mx ex], y as [sy | sy | | sy my ey]; cbn;
    try reflexivity; try (destruct sx, sy; reflexivity).
  unfold F32.mul, SFmul.
  replace (xorb (negb sx) sy) with (negb (xorb sx sy))
    by (destruct sx, sy; reflexivity).
  apply binary_round_aux_opp.
Qed.

(** The shifts of [F32.truncate] compute the integer part of [m * 2^e]. *)
Lemma shift_floor m e :
  Qfloor (inject_Z (Zpos m) * Qpower 2 e) =
  match e with
  | Zneg p => Z.shiftr (Zpos m) (Zpos p)
  | _ => Z.shiftl (Zpos m) e
  end.
Proof.
  destruct e as [| p | p].
  - rewrite <- (Qfloor_Z (Z.shiftl (Zpos m) 0)). apply Qfloor_comp.
    cbn [Qpower Z.shiftl]. apply Qmult_1_r.
  - rewrite Z.shiftl_mul_pow2 by lia.
    rewrite <- (Qfloor_Z (Zpos m * 2 ^ Zpos p)). apply Qfloor_comp.
    rewrite inject_Z_mult, Zpower_Qpower by lia. reflexivity.
  - rewrite Z.shiftr_div_pow2 by lia.
    rewrite Zdiv_Qdiv. apply Qfloor_comp.
    unfold Qdiv. rewrite Zpower_Qpower by lia.
    change (Zneg p) with (- Zpos p). rewrite Qpower_opp. reflexivity.
Qed.

Lemma value_pos m e : (0 < inject_Z (Zpos m) * Qpower 2 e)%Q.
Proof.
  apply Qmult_lt_0_compat.
  - reflexivity.
  - apply Qpower_0_lt. reflexivity.
Qed.

Lemma limit_nonpos v : v <= 0 -> limitUint16 v = 0.
Proof.
  intros H. unfold limitUint16, UINT16_MAX.
  destruct (v >? 65535) eqn:E1; [lia|].
  destruct (v <? 0) eqn:E2; lia.
Qed.

Lemma limit_range v : 0 <= limitUint16 v <= UINT16_MAX.
Proof.
  unfold limitUint16, UINT16_MAX.
  destruct (v >? 65535) eqn:E1; [lia|].
  destruct (v <? 0) eqn:E2; lia.
Qed.

Lemma Some_inj (A : Type) (a b : A) : Some a = Some b -> a = b.
Proof. congruence. Qed.

(** The conversion to an integer followed by [limitUint16] saturates: it
    yields the nearest value of the range, wherever the raw value lies. *)
Lemma saturate_sound raw c :
  saturate raw = Some c -> limitUint16 (F32.to_int32 raw) = c.
Proof.
  destruct raw as [s | s | | s m e]; cbn [saturate F32.to_Q F32.to_int32].
  - intros [= <-]. reflexivity.
  - intros [= <-]. destruct s; reflexivity.
  - discriminate.
  - pose proof (value_pos m e) as Hpos.
    pose proof (shift_floor m e) as Hfl.
    set (q := (inject_Z (Zpos m) * Qpower 2 e)%Q) in *.
    unfold F32.truncate.
    set (a := match e with
              | Zneg p => Z.shiftr (Zpos m) (Zpos p)
              | _ => Z.shiftl (Zpos m) e
              end) in *.
    assert (Ha : 0 <= a).
    { rewrite <- Hfl. change 0 with (Qfloor 0). apply Qfloor_resp_le.
      apply Qlt_le_weak, Hpos. }
    destruct s.
    + assert (Hn : Qle_bool 0 (- q) = false).
      { destruct (Qle_bool 0 (- q)) eqn:E; [|reflexivity].
        apply Qle_bool_iff in E. exfalso.
        apply (Qlt_irrefl 0). apply Qlt_le_trans with q; [exact Hpos|].
        apply Qopp_le_compat in E. rewrite Qopp_involutive in E. exact E. }
      rewrite Hn. cbn [negb]. intros [= <-].
      apply limit_nonpos. unfold F32.INT32_MIN, F32.INT32_MAX. lia.
    + assert (Hp : Qle_bool 0 q = true).
      { apply Qle_bool_iff. apply Qlt_le_weak, Hpos. }
      rewrite Hp. cbn [negb].
      destruct (Qle_bool q (inject_Z UINT16_MAX)) eqn:E; cbn [negb];
        intros H; apply Some_inj in H; subst c.
      * apply Qle_bool_iff in E. apply Qfloor_resp_le in E.
        rewrite Qfloor_Z in E. rewrite Hfl. rewrite Hfl in E.
        unfold limitUint16, F32.INT32_MIN, F32.INT32_MAX, UINT16_MAX in *.
        destruct (_ >? 65535) eqn:E1; [lia|].
        destruct (_ <? 0) eqn:E2; lia.
      * assert (Hgt : (inject_Z UINT16_MAX < q)%Q).
        { apply Qnot_le_lt. intros H. apply Qle_bool_iff in H. congruence. }
        assert (Hge : UINT16_MAX <= a).
        { rewrite <- Hfl. rewrite <- (Qfloor_Z UINT16_MAX).
          apply Qfloor_resp_le. apply Qlt_le_weak, Hgt. }
        unfold limitUint16, F32.INT32_MIN, F32.INT32_MAX, UINT16_MAX in *.
        destruct (_ >? 65535) eqn:E1; [lia|].
        destruct (_ <? 0) eqn:E2; lia.
Qed.

Lemma Qle_bool_false a b : (b < a)%Q -> Qle_bool a b = false.
Proof.
  intros H. destruct (Qle_bool a b) eqn:E; [|reflexivity].
  apply Qle_bool_iff in E. exfalso. apply (Qlt_irrefl b).
  apply Qlt_le_trans with a; assumption.
Qed.

(** Below the range: the lower boundary. *)
Lemma saturate_below raw q :
  F32.to_Q raw = Some q -> (q < 0)%Q -> saturate raw = Some 0.
Proof.
  intros Hq Hlt. destruct raw as [s | s | | s m e]; try discriminate;
    unfold saturate; rewrite Hq, (Qle_bool_false _ _ Hlt); reflexivity.
Qed.

(** Above the range: the upper boundary. *)
Lemma saturate_above raw q :
  F32.to_Q raw = Some q -> (inject_Z UINT16_MAX < q)%Q ->
  saturate raw = Some UINT16_MAX.
Proof.
  intros Hq Hgt.
  assert (H0 : Qle_bool 0 q = true).
  { apply Qle_bool_iff, Qlt_le_weak.
    apply Qlt_trans with (inject_Z UINT16_MAX); [reflexivity | exact Hgt]. }
  destruct raw as [s | s | | s m e]; try discriminate;
    unfold saturate; rewrite Hq, H0, (Qle_bool_false _ _ Hgt); reflexivity.
Qed.

Lemma is_zero_inv x : F32.is_zero x = true -> exists s, x = S754_zero s.
Proof. destruct x; try discriminate. intros _. eexists; reflexivity. Qed.

End F32Facts.

Import F32Facts.

(* ================================================================== *)
(** ** Stores that agree variable by variable *)

Lemma weq_refl w : weq w w.
Proof. repeat split. Qed.

Lemma weq_sym w1 w2 : weq w1 w2 -> weq w2 w1.
Proof. intros (HF & HU & HB & HP). repeat split; intros; congruence. Qed.

Lemma weq_trans w1 w2 w3 : weq w1 w2 -> weq w2 w3 -> weq w1 w3.
Proof.
  intros (HF & HU & HB & HP) (HF' & HU' & HB' & HP').
  repeat split; intros; congruence.
Qed.

(** Every block of the code reads its store variable by variable: on stores
    that agree it gives stores that agree. *)
Ltac weq_blast HF HU HB HP :=
  repeat split;
  [ intros v; destruct v; cbn; rewrite ?HF, ?HU; reflexivity
  | intros v; destruct v; cbn; rewrite ?HF, ?HU; reflexivity
  | intros v; destruct v; cbn; rewrite ?HB; reflexivity
  | cbn; rewrite ?HF, ?HU, ?HP; reflexivity ].

Section Frames.

Context {P : Platform}.

Lemma desired_position_weq sp w1 w2 :
  weq w1 w2 -> weq (desired_position sp w1) (desired_position sp w2).
Proof. intros (HF & HU & HB & HP). weq_blast HF HU HB HP. Qed.

Lemma measurements_weq s w1 w2 :
  weq w1 w2 -> weq (measurements s w1) (measurements s w2).
Proof. intros (HF & HU & HB & HP). weq_blast HF HU HB HP. Qed.

Lemma reset_body_weq w1 w2 : weq w1 w2 -> weq (reset_body w1) (reset_body w2).
Proof. intros (HF & HU & HB & HP). weq_blast HF HU HB HP. Qed.

Lemma observer_body_weq w1 w2 :
  weq w1 w2 -> weq (observer_body w1) (observer_body w2).
Proof. intros (HF & HU & HB & HP). weq_blast HF HU HB HP. Qed.

Lemma passthrough_body_weq st w1 w2 :
  weq w1 w2 -> weq (passthrough_body st w1) (passthrough_body st w2).
Proof. intros (HF & HU & HB & HP). weq_blast HF HU HB HP. Qed.

Lemma control_body_weq w1 w2 :
  weq w1 w2 -> weq (control_body w1) (control_body w2).
Proof. intros (HF & HU & HB & HP). weq_blast HF HU HB HP. Qed.

Lemma estimate_weq st w1 w2 : weq w1 w2 -> weq (estimate st w1) (estimate st w2).
Proof.
  intros H. unfold estimate.
  assert (HB : B w1 reset_observer = B w2 reset_observer) by apply H.
  rewrite <- HB.
  assert (H1 : weq (if B w1 reset_observer then reset_body w1 else w1)
                   (if B w1 reset_observer then reset_body w2 else w2)).
  { destruct (B w1 reset_observer); [apply reset_body_weq|]; exact H. }
  set (a := if B w1 reset_observer then reset_body w1 else w1) in *.
  set (b := if B w1 reset_observer then reset_body w2 else w2) in *.
  assert (HU : B a use_observer = B b use_observer) by apply H1.
  rewrite <- HU. destruct (B a use_observer).
  - apply observer_body_weq, H1.
  - apply passthrough_body_weq, H1.
Qed.

Lemma actuate_weq sp w1 w2 : weq w1 w2 -> weq (actuate sp w1) (actuate sp w2).
Proof.
  intros H. unfold actuate. destruct (stab_mode_eqb _ _).
  - destruct H as (HF & HU & HB & HP). weq_blast HF HU HB HP.
  - apply control_body_weq, H.
Qed.

Lemma controllerAE483_weq sp sens st tick w1 w2 :
  weq w1 w2 ->
  weq (controllerAE483 sp sens st tick w1) (controllerAE483 sp sens st tick w2).
Proof.
  intros H. unfold controllerAE483. destruct (RATE_DO_EXECUTE _ _); [|exact H].
  apply actuate_weq, estimate_weq, measurements_weq, desired_position_weq, H.
Qed.

(** The reset block leaves exactly the store that [zeroed] describes. *)
Lemma zeroed_reset_body w : weq (reset_body w) (zeroed w).
Proof. repeat split; intros v; destruct v; reflexivity. Qed.

Lemma estimate_flag_down st w :
  B w reset_observer = false ->
  estimate st w =
  if B w use_observer then observer_body w else passthrough_body st w.
Proof. intros H. unfold estimate. rewrite H. reflexivity. Qed.

Lemma estimate_flag_up st w :
  B w reset_observer = true -> estimate st w = estimate st (reset_body w).
Proof. intros H. unfold estimate. rewrite H. reflexivity. Qed.

Lemma estimate_clears_flag st w : B (estimate st w) reset_observer = false.
Proof.
  unfold estimate. destruct (B w reset_observer) eqn:E.
  - destruct (B (reset_body w) use_observer); reflexivity.
  - destruct (B w use_observer); cbn; exact E.
Qed.

(** The motor-command stage writes the effort and the motor variables and
    calls [powerSet]; it writes nothing else. *)
Lemma actuate_other_vars sp w :
  (forall v, existsb (fvar_eqb v) effort_vars = false ->
             F (actuate sp w) v = F w v) /\
  (forall b, B (actuate sp w) b = B w b) /\
  (forall v, existsb (uvar_eqb v) motor_vars = false ->
             U (actuate sp w) v = U w v).
Proof.
  unfold actuate. destruct (stab_mode_eqb _ _).
  - repeat split.
  - repeat split.
    + intros v Hv. destruct v; try reflexivity; discriminate.
    + intros v Hv. destruct v; try reflexivity; discriminate.
Qed.

Lemma estimate_of_actuate sp w : estimate_of (actuate sp w) = estimate_of w.
Proof. unfold actuate. destruct (stab_mode_eqb _ _); reflexivity. Qed.

(** A sensor callback, or a tick whose z-axis mode is disabled, leaves the
    effort and the motor variables as they are. *)
Lemma step_disabled_frame e w :
  disabled_event e = true ->
  (forall v, In v effort_vars -> F (step e w) v = F w v) /\
  (forall v, In v motor_vars -> U (step e w) v = U w v).
Proof.
  intros Hd. destruct e as [tof | flow | sp sens st tick]; cbn [step].
  - split; intros v Hv; cbn in Hv;
      repeat (destruct Hv as [<- | Hv]; [reflexivity|]); contradiction.
  - split; intros v Hv; cbn in Hv;
      repeat (destruct Hv as [<- | Hv]; [reflexivity|]); contradiction.
  - cbn in Hd. unfold controllerAE483.
    destruct (RATE_DO_EXECUTE _ _); [|split; reflexivity].
    unfold actuate. rewrite Hd. unfold estimate.
    split; intros v Hv; cbn in Hv;
      repeat (destruct Hv as [<- | Hv];
              [destruct (B _ reset_observer); destruct (B _ use_observer);
               reflexivity|]);
      contradiction.
Qed.

Lemma run_disabled_frame es : forall w,
  forallb disabled_event es = true ->
  (forall v, In v effort_vars -> F (run es w) v = F w v) /\
  (forall v, In v motor_vars -> U (run es w) v = U w v).
Proof.
  induction es as [| e es IH]; intros w Hd.
  - split; reflexivity.
  - cbn [forallb] in Hd. apply andb_true_iff in Hd as [He Hes].
    cbn [run]. destruct (IH (step e w) Hes) as [IHf IHu].
    destruct (step_disabled_frame e w He) as [Hf Hu].
    split; intros v Hv.
    + rewrite IHf by exact Hv. apply Hf, Hv.
    + rewrite IHu by exact Hv. apply Hu, Hv.
Qed.

End Frames.

(** The counters of the two sensors. *)
Lemma tof_count_step tof w :
  U (ae483UpdateWithTOF tof w) tof_count = incr16 (U w tof_count).
Proof. reflexivity. Qed.

Lemma tof_count_iter tof w (n : positive) :
  U (Pos.iter (ae483UpdateWithTOF tof) w n) tof_count =
  (U w tof_count + Zpos n) mod 65536.
Proof.
  apply Pos.iter_ind
    with (P := fun p a => U a tof_count = (U w tof_count + Zpos p) mod 65536).
  - reflexivity.
  - intros p a IH. rewrite tof_count_step, IH. unfold incr16.
    rewrite Z.add_mod_idemp_l by lia. f_equal. lia.
Qed.

Lemma incr16_spec n : 0 <= n < 65535 -> incr16 n = n + 1.
Proof. intros H. unfold incr16. apply Z.mod_small. lia. Qed.

Lemma incr16_range n : 0 <= incr16 n < 65536.
Proof. unfold incr16. apply Z.mod_pos_bound. lia. Qed.

(* ================================================================== *)
(** ** The claims *)

Section Claims.

Context {P : Platform}.

Local Open Scope f32_scope.

(** C1 (disarm safety).  On a tick that runs with the z-axis mode of the
    setpoint DISABLED, the one call of [powerSet] made is
    [powerSet(0, 0, 0, 0)], whatever the store holds (a NaN estimate
    included), whatever the sensors and the external state are, and whatever
    the platform's cosine and sine return: nothing the controller computes
    reaches the commanded power. *)
Theorem C1_disabled_commands_zero_power sp sens st tick w :
  RATE_DO_EXECUTE ATTITUDE_RATE tick = true ->
  Mode.z (Setpoint.mode sp) = modeDisable ->
  power (controllerAE483 sp sens st tick w) = (0, 0, 0, 0)%Z :: power w.
Proof.
  intros He Hm. unfold controllerAE483. rewrite He.
  unfold actuate. rewrite Hm. cbn [stab_mode_eqb powerSet power].
  f_equal. unfold estimate.
  destruct (B _ reset_observer); destruct (B _ use_observer); reflexivity.
Qed.

(** C2 (reset).  On a tick that runs with [reset_observer] up, the result is
    the result of the same tick started from the store in which the nine
    integrated variables are zero and the flag is down: the zeroing comes
    before the integration, and once.  The flag is down afterwards, and the
    tick that follows integrates (or relays) from what this one left, without
    zeroing again. *)
Theorem C2_reset_once sp sens st tick w :
  RATE_DO_EXECUTE ATTITUDE_RATE tick = true ->
  B w reset_observer = true ->
  let w' := controllerAE483 sp sens st tick w in
  weq w' (controllerAE483 sp sens st tick (zeroed w)) /\
  B w' reset_observer = false /\
  (forall sp2 sens2 st2 tick2,
      RATE_DO_EXECUTE ATTITUDE_RATE tick2 = true ->
      controllerAE483 sp2 sens2 st2 tick2 w' =
      let pre := measurements sens2 (desired_position sp2 w') in
      actuate sp2 (if B pre use_observer then observer_body pre
                   else passthrough_body st2 pre)).
Proof.
  intros He Hr w'.
  assert (Hdown : B w' reset_observer = false).
  { subst w'. unfold controllerAE483. rewrite He. unfold actuate.
    destruct (stab_mode_eqb _ _); cbn -[estimate]; apply estimate_clears_flag. }
  split; [|split].
  - subst w'. unfold controllerAE483. rewrite He.
    apply actuate_weq.
    rewrite estimate_flag_up by exact Hr.
    apply estimate_weq.
    eapply weq_trans; [apply zeroed_reset_body|].
    repeat split; intros v; destruct v; reflexivity.
  - exact Hdown.
  - intros sp2 sens2 st2 tick2 He2. unfold controllerAE483 at 1. rewrite He2.
    cbv zeta. rewrite estimate_flag_down by exact Hdown. reflexivity.
Qed.

(** C5, as the code has it.  In pass-through mode the twelve fields of the new
    estimate are those of [passthrough_estimate]: a function of the external
    state and of the gyro, in which the previous estimate does not occur.
    The position is the position of the external state. *)
Theorem C5_passthrough_recomputed sp sens st tick w :
  RATE_DO_EXECUTE ATTITUDE_RATE tick = true ->
  B w use_observer = false ->
  let w' := controllerAE483 sp sens st tick w in
  estimate_of w' = passthrough_estimate st sens /\
  w'.[o_x] = Vec3.x (State.position st) /\
  w'.[o_y] = Vec3.y (State.position st) /\
  w'.[o_z] = Vec3.z (State.position st).
Proof.
  intros He Hu w'. subst w'. unfold controllerAE483. rewrite He.
  unfold actuate, estimate.
  destruct (stab_mode_eqb _ _);
    (destruct (B (measurements sens (desired_position sp w)) reset_observer) eqn:Hr;
     [ change (B (reset_body (measurements sens (desired_position sp w))) use_observer)
         with (B w use_observer)
     | change (B (measurements sens (desired_position sp w)) use_observer)
         with (B w use_observer) ];
     rewrite Hu; repeat split).
Qed.

(** C6, as the code has it.  In observer mode the x residual is
    [k_flow * (v_x/o_z_eq - w_y) - n_x] and the y residual is
    [k_flow * (w_x + v_y/o_z_eq) - n_y]: the rate [w_x] is added, not
    subtracted.  The velocities are those of the previous tick (zero after a
    reset), the rates this tick's gyro, the flow the buffered sample. *)
Theorem C6_flow_residuals sp sens st tick w :
  RATE_DO_EXECUTE ATTITUDE_RATE tick = true ->
  B w use_observer = true ->
  let w' := controllerAE483 sp sens st tick w in
  let prev v := if B w reset_observer then F32.zero else w.[v] in
  let wx := radians (Vec3.x (SensorData.gyro sens)) in
  let wy := radians (Vec3.y (SensorData.gyro sens)) in
  w'.[n_x_err] = k_flow * ((prev v_x / o_z_eq) - wy) - w.[flow_dpixelx] /\
  w'.[n_y_err] = k_flow * (wx + (prev v_y / o_z_eq)) - w.[flow_dpixely].
Proof.
  intros He Hu w' prev wx wy. subst w' prev wx wy.
  unfold controllerAE483. rewrite He.
  unfold actuate, estimate.
  destruct (stab_mode_eqb _ _);
    (change (B (measurements sens (desired_position sp w)) reset_observer)
       with (B w reset_observer);
     destruct (B w reset_observer) eqn:Hr;
     [ change (B (reset_body (measurements sens (desired_position sp w))) use_observer)
         with (B w use_observer)
     | change (B (measurements sens (desired_position sp w)) use_observer)
         with (B w use_observer) ];
     rewrite Hu; split; reflexivity).
Qed.

(** C7, as the code has it.  Two ticks that run in the same mode and read the
    same gyro give the same estimate as soon as they agree, in observer mode,
    on the reset flag, the nine integrated variables, the buffered range and
    flow and the z accelerometer (whatever the external states and the
    setpoints are), and in pass-through mode, on the external state (whatever
    the previous estimates, the buffers, the reset flags and the
    accelerometers are). *)
Theorem C7_mode_noninterference
        sp1 sp2 sens1 sens2 st1 st2 tick1 tick2 w1 w2 :
  RATE_DO_EXECUTE ATTITUDE_RATE tick1 = true ->
  RATE_DO_EXECUTE ATTITUDE_RATE tick2 = true ->
  B w1 use_observer = B w2 use_observer ->
  SensorData.gyro sens1 = SensorData.gyro sens2 ->
  (if B w1 use_observer
   then B w1 reset_observer = B w2 reset_observer /\
        (forall v, In v integrated -> w1.[v] = w2.[v]) /\
        (forall v, In v [tof_distance; flow_dpixelx; flow_dpixely] ->
                   w1.[v] = w2.[v]) /\
        Vec3.z (SensorData.acc sens1) = Vec3.z (SensorData.acc sens2)
   else st1 = st2) ->
  estimate_of (controllerAE483 sp1 sens1 st1 tick1 w1) =
  estimate_of (controllerAE483 sp2 sens2 st2 tick2 w2).
Proof.
  intros He1 He2 Hu Hg Hin.
  unfold controllerAE483. rewrite He1, He2.
  rewrite !estimate_of_actuate. unfold estimate.
  change (B (measurements sens1 (desired_position sp1 w1)) reset_observer)
    with (B w1 reset_observer).
  change (B (measurements sens2 (desired_position sp2 w2)) reset_observer)
    with (B w2 reset_observer).
  destruct (B w1 use_observer) eqn:Hu1; symmetry in Hu.
  - destruct Hin as (Hr & Hint & Hbuf & Hacc). rewrite <- Hr.
    pose proof (Hint o_x ltac:(cbn; tauto)) as Eox.
    pose proof (Hint o_y ltac:(cbn; tauto)) as Eoy.
    pose proof (Hint o_z ltac:(cbn; tauto)) as Eoz.
    pose proof (Hint psi ltac:(cbn; tauto)) as Epsi.
    pose proof (Hint theta ltac:(cbn; tauto)) as Eth.
    pose proof (Hint phi ltac:(cbn; tauto)) as Ephi.
    pose proof (Hint v_x ltac:(cbn; tauto)) as Evx.
    pose proof (Hint v_y ltac:(cbn; tauto)) as Evy.
    pose proof (Hint v_z ltac:(cbn; tauto)) as Evz.
    pose proof (Hbuf tof_distance ltac:(cbn; tauto)) as Et.
    pose proof (Hbuf flow_dpixelx ltac:(cbn; tauto)) as Efx.
    pose proof (Hbuf flow_dpixely ltac:(cbn; tauto)) as Efy.
    destruct (B w1 reset_observer);
      [ change (B (reset_body (measurements sens1 (desired_position sp1 w1)))
                  use_observer) with (B w1 use_observer);
        change (B (reset_body (measurements sens2 (desired_position sp2 w2)))
                  use_observer) with (B w2 use_observer)
      | change (B (measurements sens1 (desired_position sp1 w1)) use_observer)
          with (B w1 use_observer);
        change (B (measurements sens2 (desired_position sp2 w2)) use_observer)
          with (B w2 use_observer) ];
      rewrite Hu, Hu1; cbn;
      rewrite ?Eox, ?Eoy, ?Eoz, ?Epsi, ?Eth, ?Ephi, ?Evx, ?Evy, ?Evz,
              ?Et, ?Efx, ?Efy, Hg, Hacc; reflexivity.
  - subst st2.
    destruct (B w1 reset_observer), (B w2 reset_observer);
      repeat match goal with
      | |- context [B (reset_body (measurements ?s (desired_position ?p ?w)))
                      use_observer] =>
          change (B (reset_body (measurements s (desired_position p w)))
                    use_observer) with (B w use_observer)
      | |- context [B (measurements ?s (desired_position ?p ?w)) use_observer] =>
          change (B (measurements s (desired_position p w)) use_observer)
            with (B w use_observer)
      end;
      rewrite Hu, Hu1; cbn; rewrite Hg; reflexivity.
Qed.

(** C10 (telemetry on disabled ticks).  Through any run of sensor callbacks
    and of ticks whose z-axis mode is DISABLED, the four effort variables and
    the four motor-command variables keep the values they had (those of the
    last enabled tick).  A disabled tick that runs commands zero power, yet
    its estimation step runs: every variable but the effort is what
    [estimate] makes of it, and the estimate is the one an enabled tick with
    the same desired position computes. *)
Theorem C10_disabled_keeps_telemetry es sp sens st tick w :
  forallb disabled_event es = true ->
  Mode.z (Setpoint.mode sp) = modeDisable ->
  RATE_DO_EXECUTE ATTITUDE_RATE tick = true ->
  let w' := controllerAE483 sp sens st tick w in
  ((forall v, In v effort_vars -> F (run es w) v = F w v) /\
   (forall v, In v motor_vars -> U (run es w) v = U w v)) /\
  ((forall v, In v effort_vars -> F w' v = F w v) /\
   (forall v, In v motor_vars -> U w' v = U w v) /\
   power w' = (0, 0, 0, 0)%Z :: power w) /\
  (forall v, existsb (fvar_eqb v) effort_vars = false ->
     F w' v = F (estimate st (measurements sens (desired_position sp w))) v) /\
  (forall sp', Setpoint.position sp' = Setpoint.position sp ->
     estimate_of w' = estimate_of (controllerAE483 sp' sens st tick w)).
Proof.
  intros Hes Hm He w'.
  split; [apply run_disabled_frame, Hes|].
  split; [|split].
  - destruct (step_disabled_frame (EvTick sp sens st tick) w) as [Hf Hu].
    { cbn. rewrite Hm. reflexivity. }
    repeat split; [exact Hf | exact Hu |].
    subst w'. unfold controllerAE483. rewrite He. unfold actuate. rewrite Hm.
    cbn [stab_mode_eqb powerSet power]. f_equal. unfold estimate.
    destruct (B _ reset_observer); destruct (B _ use_observer); reflexivity.
  - intros v Hv. subst w'. unfold controllerAE483. rewrite He.
    apply actuate_other_vars, Hv.
  - intros sp' Hp. subst w'. unfold controllerAE483. rewrite He.
    rewrite !estimate_of_actuate.
    unfold desired_position. rewrite Hp. reflexivity.
Qed.

End Claims.

(** *** The mixer *)

(** The four expressions of lines 232-235 are the four rows of
    [mixing_matrix] applied to the effort. *)
Lemma raw_command_rows w :
  let e := effort_of w in
  raw_command 0 e =
    ((- lit "3706927.3") * w.[tau_x] - lit "3706927.3" * w.[tau_y]
     - lit "38218981.7" * w.[tau_z] + lit "122328.6" * w.[f_z])%f32 /\
  raw_command 1 e =
    ((- lit "3706927.3") * w.[tau_x] + lit "3706927.3" * w.[tau_y]
     + lit "38218981.7" * w.[tau_z] + lit "122328.6" * w.[f_z])%f32 /\
  raw_command 2 e =
    (lit "3706927.3" * w.[tau_x] + lit "3706927.3" * w.[tau_y]
     - lit "38218981.7" * w.[tau_z] + lit "122328.6" * w.[f_z])%f32 /\
  raw_command 3 e =
    (lit "3706927.3" * w.[tau_x] - lit "3706927.3" * w.[tau_y]
     + lit "38218981.7" * w.[tau_z] + lit "122328.6" * w.[f_z])%f32.
Proof.
  cbv [raw_command apply_row mixing_matrix nth effort_of effort_vars map
       combine fold_left fst snd].
  rewrite !sub_add_neg, <- !mul_neg_l. repeat split.
Qed.

(** C3 (saturation).  For every control effort held in [tau_x], [tau_y],
    [tau_z], [f_z], each motor command is the row of the mixing matrix applied
    to the effort, saturated: 0 for a raw value below the range, 65535 for one
    above it, its integer part inside.  The four commands are what [powerSet]
    receives, and they lie in the range. *)
Theorem C3_mixer_saturates w c1 c2 c3 c4 :
  saturate (raw_command 0 (effort_of w)) = Some c1 ->
  saturate (raw_command 1 (effort_of w)) = Some c2 ->
  saturate (raw_command 2 (effort_of w)) = Some c3 ->
  saturate (raw_command 3 (effort_of w)) = Some c4 ->
  let w' := mix_body w in
  U w' m_1 = c1 /\ U w' m_2 = c2 /\ U w' m_3 = c3 /\ U w' m_4 = c4 /\
  power w' = (c1, c2, c3, c4) :: power w /\
  Forall (fun c => 0 <= c <= UINT16_MAX) [c1; c2; c3; c4].
Proof.
  intros H1 H2 H3 H4 w'.
  destruct (raw_command_rows w) as (R1 & R2 & R3 & R4).
  rewrite R1 in H1. rewrite R2 in H2. rewrite R3 in H3. rewrite R4 in H4.
  apply saturate_sound in H1, H2, H3, H4.
  assert (E1 : U w' m_1 = c1) by exact H1.
  assert (E2 : U w' m_2 = c2) by exact H2.
  assert (E3 : U w' m_3 = c3) by exact H3.
  assert (E4 : U w' m_4 = c4) by exact H4.
  repeat split; try assumption.
  - change (power w')
      with ((U w' m_1, U w' m_2, U w' m_3, U w' m_4) :: power w).
    rewrite E1, E2, E3, E4. reflexivity.
  - rewrite <- H1, <- H2, <- H3, <- H4.
    repeat constructor; apply limit_range.
Qed.

Lemma C3_mixer_saturates_witness :
  let w' := mix_body w_big_torque in
  U w' m_1 = 0 /\ U w' m_2 = 0 /\ U w' m_3 = 65535 /\ U w' m_4 = 65535 /\
  power w' = (0, 0, 65535, 65535) :: power w_big_torque /\
  Forall (fun c => 0 <= c <= UINT16_MAX) [0; 0; 65535; 65535].
Proof.
  apply (C3_mixer_saturates w_big_torque 0 0 65535 65535);
    vm_compute; reflexivity.
Defined.

(** *** Hover at trim *)

Lemma effort_at_trim w :
  F32.is_finite w.[o_x] = true -> F32.is_finite w.[o_y] = true ->
  w.[o_z] = o_z_eq ->
  w.[o_x_des] = w.[o_x] -> w.[o_y_des] = w.[o_y] -> w.[o_z_des] = w.[o_z] ->
  (forall v, In v rest_vars -> F32.is_zero w.[v] = true) ->
  let w' := effort_body w in
  F32.is_zero w'.[tau_x] = true /\ F32.is_zero w'.[tau_y] = true /\
  F32.is_zero w'.[tau_z] = true /\ w'.[f_z] = lit "0.35217900".
Proof.
  intros Fx Fy Hz Dx Dy Dz Hrest w'. subst w'. cbn.
  rewrite Dx, Dy, Dz, Hz, !sub_self by (assumption || reflexivity).
  destruct (is_zero_inv _ (Hrest psi ltac:(cbn; tauto))) as [s1 ->].
  destruct (is_zero_inv _ (Hrest theta ltac:(cbn; tauto))) as [s2 ->].
  destruct (is_zero_inv _ (Hrest phi ltac:(cbn; tauto))) as [s3 ->].
  destruct (is_zero_inv _ (Hrest v_x ltac:(cbn; tauto))) as [s4 ->].
  destruct (is_zero_inv _ (Hrest v_y ltac:(cbn; tauto))) as [s5 ->].
  destruct (is_zero_inv _ (Hrest v_z ltac:(cbn; tauto))) as [s6 ->].
  destruct (is_zero_inv _ (Hrest w_x ltac:(cbn; tauto))) as [s7 ->].
  destruct (is_zero_inv _ (Hrest w_y ltac:(cbn; tauto))) as [s8 ->].
  destruct (is_zero_inv _ (Hrest w_z ltac:(cbn; tauto))) as [s9 ->].
  repeat split.
  - destruct s3, s5, s7; vm_compute; reflexivity.
  - destruct s2, s4, s8; vm_compute; reflexivity.
  - destruct s1, s9; vm_compute; reflexivity.
  - destruct s6; vm_compute; reflexivity.
Qed.

Lemma mix_at_trim w :
  F32.is_zero w.[tau_x] = true -> F32.is_zero w.[tau_y] = true ->
  F32.is_zero w.[tau_z] = true -> w.[f_z] = lit "0.35217900" ->
  let w' := mix_body w in
  U w' m_1 = 43081 /\ U w' m_2 = 43081 /\ U w' m_3 = 43081 /\
  U w' m_4 = 43081 /\
  power w' = (43081, 43081, 43081, 43081) :: power w.
Proof.
  intros Hx Hy Hz Hf w'. subst w'. cbn. rewrite Hf.
  destruct (is_zero_inv _ Hx) as [s1 ->].
  destruct (is_zero_inv _ Hy) as [s2 ->].
  destruct (is_zero_inv _ Hz) as [s3 ->].
  destruct s1, s2, s3; vm_compute; repeat split.
Qed.

(** C8 (hover at trim).  With the estimate at rest at the trim altitude
    (finite x and y, [o_z = o_z_eq], angles, velocities and rates zero of
    either sign), the desired position equal to the estimated one and the
    z-axis mode not DISABLED, the three torques compare equal to zero, the
    thrust is the bias 0.35217900, and the four motor commands handed to
    [powerSet] are equal. *)
Theorem C8_hover_at_trim sp w :
  Mode.z (Setpoint.mode sp) <> modeDisable ->
  F32.is_finite w.[o_x] = true -> F32.is_finite w.[o_y] = true ->
  w.[o_z] = o_z_eq ->
  w.[o_x_des] = w.[o_x] -> w.[o_y_des] = w.[o_y] -> w.[o_z_des] = w.[o_z] ->
  (forall v, In v rest_vars -> F32.is_zero w.[v] = true) ->
  let w' := actuate sp w in
  F32.eqb w'.[tau_x] F32.zero = true /\
  F32.eqb w'.[tau_y] F32.zero = true /\
  F32.eqb w'.[tau_z] F32.zero = true /\
  w'.[f_z] = lit "0.35217900" /\
  U w' m_1 = U w' m_2 /\ U w' m_2 = U w' m_3 /\ U w' m_3 = U w' m_4 /\
  power w' = (U w' m_1, U w' m_2, U w' m_3, U w' m_4) :: power w.
Proof.
  intros Hm Fx Fy Hz Dx Dy Dz Hrest w'.
  assert (Hw : w' = mix_body (effort_body w)).
  { subst w'. unfold actuate.
    destruct (Mode.z (Setpoint.mode sp)); try reflexivity. contradiction. }
  destruct (effort_at_trim w Fx Fy Hz Dx Dy Dz Hrest) as (Tx & Ty & Tz & Tf).
  destruct (mix_at_trim (effort_body w) Tx Ty Tz Tf)
    as (M1 & M2 & M3 & M4 & Mp).
  rewrite Hw.
  assert (Hframe : forall v,
             (mix_body (effort_body w)).[v] = (effort_body w).[v])
    by reflexivity.
  rewrite !Hframe, M1, M2, M3, M4.
  assert (Hpow : power (effort_body w) = power w) by reflexivity.
  rewrite Hpow in Mp.
  destruct (is_zero_inv _ Tx) as [s1 E1].
  destruct (is_zero_inv _ Ty) as [s2 E2].
  destruct (is_zero_inv _ Tz) as [s3 E3].
  rewrite E1, E2, E3.
  repeat split; try assumption.
Qed.

Lemma C8_hover_at_trim_witness :
  let w' := actuate sp_hover w_hover in
  w'.[f_z] = lit "0.35217900" /\
  power w' = [(43081, 43081, 43081, 43081)].
Proof.
  destruct (C8_hover_at_trim sp_hover w_hover)
    as (_ & _ & _ & Hf & _ & _ & _ & Hp).
  - cbn. discriminate.
  - reflexivity.
  - reflexivity.
  - reflexivity.
  - reflexivity.
  - reflexivity.
  - reflexivity.
  - intros v Hv. cbn in Hv.
    repeat (destruct Hv as [<- | Hv]; [reflexivity|]). contradiction.
  - split; [exact Hf|]. rewrite Hp. vm_compute. reflexivity.
Defined.

(** A whole tick in pass-through mode, from the initial store, the external
    state at rest at the hover position. *)
Example hover_tick :
  power (controllerAE483 sp_hover sensors0
           (State.mk (Setpoint.position sp_hover) att0 vec0) 0 init_world)
  = [(43081, 43081, 43081, 43081)].
Proof. vm_compute. reflexivity. Qed.

(** *** The sensor callbacks *)

(** C9, as stated, fails when a counter is at 65535: after 65535 range
    samples the next one takes [tof_count] to 0, which is not greater. *)
Lemma C9_counter_wraps :
  U w_tof_65535 tof_count = 65535 /\
  ~ (U w_tof_65535 tof_count
     < U (ae483UpdateWithTOF tof_sample w_tof_65535) tof_count).
Proof.
  assert (H : U w_tof_65535 tof_count = 65535).
  { unfold w_tof_65535. rewrite tof_count_iter. reflexivity. }
  split; [exact H|].
  rewrite tof_count_step, H. cbv. discriminate.
Qed.

(** C9, as the code has it.  [ae483UpdateWithTOF] writes [tof_distance] and
    [tof_count] and nothing else; [ae483UpdateWithFlow] writes
    [flow_dpixelx], [flow_dpixely] and [flow_count] and nothing else.  Each
    counter goes up by one modulo 2^16: strictly up below 65535, and from
    65535 to 0. *)
Theorem C9_callbacks_frame tof flow w :
  let wt := ae483UpdateWithTOF tof w in
  let wf := ae483UpdateWithFlow flow w in
  (wt.[tof_distance] = Tof.distance tof /\
   (forall v, v <> tof_distance -> wt.[v] = w.[v]) /\
   U wt tof_count = (U w tof_count + 1) mod 65536 /\
   (forall v, v <> tof_count -> U wt v = U w v) /\
   (forall b, B wt b = B w b) /\ power wt = power w) /\
  (wf.[flow_dpixelx] = Flow.dpixelx flow /\
   wf.[flow_dpixely] = Flow.dpixely flow /\
   (forall v, v <> flow_dpixelx -> v <> flow_dpixely -> wf.[v] = w.[v]) /\
   U wf flow_count = (U w flow_count + 1) mod 65536 /\
   (forall v, v <> flow_count -> U wf v = U w v) /\
   (forall b, B wf b = B w b) /\ power wf = power w) /\
  (0 <= U w tof_count < 65535 -> U w tof_count < U wt tof_count) /\
  (0 <= U w flow_count < 65535 -> U w flow_count < U wf flow_count) /\
  (U w tof_count = 65535 -> U wt tof_count = 0) /\
  (U w flow_count = 65535 -> U wf flow_count = 0).
Proof.
  intros wt wf. subst wt wf.
  split; [|split; [|split; [|split; [|split]]]].
  - repeat split.
    + intros v Hv. destruct v; try reflexivity. contradiction.
    + intros v Hv. destruct v; try reflexivity. contradiction.
  - repeat split.
    + intros v Hx Hy. destruct v; try reflexivity; contradiction.
    + intros v Hv. destruct v; try reflexivity. contradiction.
  - intros H. cbn. rewrite incr16_spec by exact H. lia.
  - intros H. cbn. rewrite incr16_spec by exact H. lia.
  - intros H. cbn. rewrite H. reflexivity.
  - intros H. cbn. rewrite H. reflexivity.
Qed.

Lemma C9_callbacks_frame_witness :
  U init_world tof_count
  < U (ae483UpdateWithTOF tof_sample init_world) tof_count.
Proof.
  apply (C9_callbacks_frame tof_sample (Flow.mk F32.zero F32.zero) init_world).
  vm_compute. split; [discriminate | reflexivity].
Defined.

(** *** Closed instances, on the platform [small_angle] *)

Lemma C1_disabled_commands_zero_power_witness :
  power (controllerAE483 sp_disabled sensors0 state0 0 w_nan) = [(0, 0, 0, 0)].
Proof.
  apply (C1_disabled_commands_zero_power sp_disabled sensors0 state0 0 w_nan);
    reflexivity.
Defined.

Lemma C2_reset_once_witness :
  B (controllerAE483 sp0 sensors0 state0 0 w_obs_z1_reset) reset_observer
  = false.
Proof.
  apply (C2_reset_once sp0 sensors0 state0 0 w_obs_z1_reset); reflexivity.
Defined.

(** The reset tick of the witness leaves [o_z] at zero, where the same tick
    without the reset moves it from 1. *)
Example reset_tick_zeroes_first :
  (controllerAE483 sp0 sensors0 state0 0 w_obs_z1_reset).[o_z] = F32.zero /\
  (controllerAE483 sp0 sensors0 state0 0 w_obs_z1).[o_z]
  = S754_finite false 16658946 (-24).
Proof. vm_compute. split; reflexivity. Qed.

(** C4: the code at an input where it leaves the forward-Euler step.  In
    observer mode, from the zero estimate with a flow sample [dpixelx = 1],
    the tick moves [theta], and the new [v_x] is computed on the moved
    [theta], not on the one of the previous tick. *)
Lemma C4_v_x_reads_updated_theta :
  let pre := measurements sensors0 (desired_position sp0 w_obs_flow) in
  let w' := controllerAE483 sp0 sensors0 state0 0 w_obs_flow in
  B w_obs_flow use_observer = true /\
  w'.[theta] <> pre.[theta] /\
  w'.[v_x] <> v_x_forward_euler pre /\
  w'.[v_x] = (pre.[v_x] + dt * (g * w'.[theta]
               - lit "0.322134"
                 * flow_residual_x pre.[v_x] pre.[w_y] pre.[n_x]))%f32.
Proof. vm_compute. repeat split; discriminate. Qed.

(** C5, as stated, fails: in pass-through mode the new [o_x] is the external
    2, not the 1 of the previous estimate. *)
Lemma C5_position_not_from_previous_estimate :
  B w_prev_x1 use_observer = false /\
  RATE_DO_EXECUTE ATTITUDE_RATE 0 = true /\
  (controllerAE483 sp0 sensors0 state_x2 0 w_prev_x1).[o_x] <> w_prev_x1.[o_x].
Proof. vm_compute. repeat split; discriminate. Qed.

Lemma C5_passthrough_recomputed_witness :
  (controllerAE483 sp0 sensors0 state_x2 0 w_prev_x1).[o_x] = lit "2.0".
Proof.
  apply (C5_passthrough_recomputed sp0 sensors0 state_x2 0 w_prev_x1);
    reflexivity.
Defined.

(** C6, as stated, fails: with a roll rate of one degree per second and
    everything else zero, the x residual is the formula of the claim and the
    y residual is not. *)
Lemma C6_y_residual_sign :
  let pre := measurements sensors_roll_rate (desired_position sp0 w_obs) in
  let w' := controllerAE483 sp0 sensors_roll_rate state0 0 w_obs in
  B w_obs use_observer = true /\
  w'.[n_x_err] = flow_residual_x pre.[v_x] pre.[w_y] pre.[n_x] /\
  w'.[n_y_err] <> flow_residual_y_spec pre.[v_y] pre.[w_x] pre.[n_y].
Proof. vm_compute. repeat split; discriminate. Qed.

Lemma C6_flow_residuals_witness :
  (controllerAE483 sp0 sensors_roll_rate state0 0 w_obs).[n_y_err]
  = (k_flow * (radians (lit "1.0") + (F32.zero / o_z_eq)) - F32.zero)%f32.
Proof.
  apply (C6_flow_residuals sp0 sensors_roll_rate state0 0 w_obs); reflexivity.
Defined.

(** C7, as stated, fails: two runs in observer mode that agree on the
    previous estimate, the buffers, the gyro and the accelerometer, and
    differ in the reset flag alone, give different estimates. *)
Lemma C7_reset_flag_is_an_input :
  B w_obs_z1 use_observer = true /\ B w_obs_z1_reset use_observer = true /\
  estimate_of w_obs_z1 = estimate_of w_obs_z1_reset /\
  map (F w_obs_z1) [tof_distance; flow_dpixelx; flow_dpixely] =
  map (F w_obs_z1_reset) [tof_distance; flow_dpixelx; flow_dpixely] /\
  estimate_of (controllerAE483 sp0 sensors0 state0 0 w_obs_z1) <>
  estimate_of (controllerAE483 sp0 sensors0 state0 0 w_obs_z1_reset).
Proof. vm_compute. repeat split; discriminate. Qed.

Lemma C7_mode_noninterference_witness :
  estimate_of (controllerAE483 sp0 sensors0 state0 0 w_obs_z1) =
  estimate_of (controllerAE483 sp_hover sensors0 state_x2 2 w_obs_z1).
Proof.
  apply (C7_mode_noninterference
           sp0 sp_hover sensors0 sensors0 state0 state_x2 0 2
           w_obs_z1 w_obs_z1); try reflexivity.
  cbn. repeat split.
Defined.

Lemma C10_disabled_keeps_telemetry_witness :
  let w := controllerAE483 sp_hover sensors0 state0 0 w_obs in
  let es := [EvTOF tof_sample; EvTick sp_disabled sensors0 state0 2;
             EvFlow (Flow.mk (lit "1.0") F32.zero);
             EvTick sp_disabled sensors0 state0 4] in
  U (run es w) m_1 = U w m_1 /\
  power (controllerAE483 sp_disabled sensors0 state0 2 w)
  = (0, 0, 0, 0) :: power w.
Proof.
  intros w es.
  destruct (C10_disabled_keeps_telemetry es sp_disabled sensors0 state0 2 w)
    as ((_ & Hu) & (_ & _ & Hp) & _); try reflexivity.
  split; [apply Hu; cbn; tauto | exact Hp].
Defined.

(** On the disabled ticks of that run the estimate keeps moving while the
    motor variable keeps its value. *)
Example disabled_tick_still_estimates :
  let w := controllerAE483 sp_hover sensors0 state0 0 w_obs in
  let w' := controllerAE483 sp_disabled sensors0 state0 2 w in
  w'.[v_z] <> w.[v_z] /\ U w' m_1 = U w m_1 /\ U w m_1 <> 0.
Proof. vm_compute. repeat split; discriminate. Qed.

(* ================================================================== *)
(** * Further properties of the code *)

(** ** More binary32 facts *)

Lemma to_int32_add_zero_l s y :
  F32.to_int32 (F32.add (S754_zero s) y) = F32.to_int32 y.
Proof.
  destruct y as [sy | sy | | sy my ey]; try reflexivity.
  destruct s, sy; reflexivity.
Qed.

Lemma one_eq : lit "1.0" = S754_finite false 8388608 (-23).
Proof. reflexivity. Qed.

Lemma shr_23 m :
  iter_pos shr_1 23 (Build_shr_record (Zpos (Pos.mul 8388608 m)) false false)
  = Build_shr_record (Zpos m) false false.
Proof. reflexivity. Qed.

Lemma digits_23 m :
  Zpos (digits2_pos (Pos.mul 8388608 m)) = Zpos (digits2_pos m) + 23.
Proof. cbn. lia. Qed.

(** Multiplying a float by 1 is exact. *)
Lemma mul_one_r x : F32.valid x = true -> F32.mul x (lit "1.0") = x.
Proof.
  destruct x as [s | s | | s m e]; cbn; try reflexivity.
  - destruct s; reflexivity.
  - destruct s; reflexivity.
  - intros Hb. unfold F32.valid in Hb. cbn [valid_binary] in Hb.
    unfold bounded in Hb. apply andb_true_iff in Hb as [Hc He].
    unfold canonical_mantissa in Hc. apply Z.eqb_eq in Hc.
    unfold F32.mul. rewrite one_eq. cbn [SFmul]. rewrite xorb_false_r.
    rewrite (Pos.mul_comm m).
    unfold binary_round_aux, shr_fexp.
    cbn [shr_record_of_loc Zdigits2].
    rewrite digits_23.
    replace (Z.pos (digits2_pos m) + 23 + (e + -23))
      with (Z.pos (digits2_pos m) + e) by lia.
    rewrite Hc.
    replace (e - (e + -23)) with 23 by lia.
    cbn [shr]. rewrite shr_23.
    cbn [shr_m loc_of_shr_record round_nearest_even Zdigits2
         shr_record_of_loc].
    replace (e + -23 + 23) with e by lia.
    rewrite Hc, Z.sub_diag. cbn [shr shr_m].
    fold F32.emax F32.prec in He |- *.
    rewrite He. reflexivity.
Qed.

Lemma zero_finite a : F32.is_zero a = true -> F32.is_finite a = true.
Proof. destruct a; try discriminate; reflexivity. Qed.

Lemma zmul_l a b :
  F32.is_zero a = true -> F32.is_finite b = true ->
  F32.is_zero (F32.mul a b) = true.
Proof. destruct a, b; try discriminate; reflexivity. Qed.

Lemma zmul_r a b :
  F32.is_finite a = true -> F32.is_zero b = true ->
  F32.is_zero (F32.mul a b) = true.
Proof. destruct a, b; try discriminate; reflexivity. Qed.

Lemma zadd a b :
  F32.is_zero a = true -> F32.is_zero b = true ->
  F32.is_zero (F32.add a b) = true.
Proof.
  destruct a as [[]| | |], b as [[]| | |]; try discriminate; reflexivity.
Qed.

Lemma zsub a b :
  F32.is_zero a = true -> F32.is_zero b = true ->
  F32.is_zero (F32.sub a b) = true.
Proof.
  destruct a as [[]| | |], b as [[]| | |]; try discriminate; reflexivity.
Qed.

Lemma zneg a : F32.is_zero a = true -> F32.is_zero (F32.neg a) = true.
Proof. destruct a; try discriminate; reflexivity. Qed.

Lemma one_finite : F32.is_finite (lit "1.0") = true.
Proof. reflexivity. Qed.

Lemma zero_add_one a :
  F32.is_zero a = true -> F32.add a (lit "1.0") = lit "1.0".
Proof. destruct a as [[]| | |]; try discriminate; reflexivity. Qed.

Lemma one_mul_one : F32.mul (lit "1.0") (lit "1.0") = lit "1.0".
Proof. reflexivity. Qed.

Lemma radians_zero a : F32.is_zero a = true -> F32.is_zero (radians a) = true.
Proof. destruct a as [[]| | |]; try discriminate; reflexivity. Qed.

Lemma same_number_refl x : F32.is_finite x = true -> same_number x x.
Proof. destruct x; try discriminate; reflexivity. Qed.

Lemma same_number_add_zero x r z :
  same_number x r -> F32.is_zero z = true ->
  same_number x (F32.add r z) /\ same_number x (F32.sub r z) /\
  same_number x (F32.add z r).
Proof.
  intros Hs Hz. destruct (is_zero_inv _ Hz) as [sz ->].
  destruct x as [s | s | | s m e]; cbn in Hs.
  - destruct (is_zero_inv _ Hs) as [sr ->]. cbn.
    destruct sr, sz; repeat split.
  - subst r. repeat split.
  - subst r. repeat split.
  - subst r. repeat split.
Qed.

Lemma same_add_r x r z :
  same_number x r -> F32.is_zero z = true -> same_number x (F32.add r z).
Proof. intros Hs Hz. apply (same_number_add_zero x r z Hs Hz). Qed.

Lemma same_sub_r x r z :
  same_number x r -> F32.is_zero z = true -> same_number x (F32.sub r z).
Proof. intros Hs Hz. apply (same_number_add_zero x r z Hs Hz). Qed.

Lemma same_add_l x r z :
  same_number x r -> F32.is_zero z = true -> same_number x (F32.add z r).
Proof. intros Hs Hz. apply (same_number_add_zero x r z Hs Hz). Qed.

(** The same number compares equal ([==] of C), and is the same float unless
    it is a zero. *)
Lemma same_number_eqb x r :
  same_number x r -> F32.is_finite x = true ->
  F32.eqb r x = true /\ (F32.is_zero x = false -> r = x).
Proof.
  intros Hs Hf. destruct x as [s | s | | s m e]; try discriminate; cbn in Hs.
  - destruct (is_zero_inv _ Hs) as [sr ->]. split; [reflexivity | discriminate].
  - subst r. split; [|reflexivity].
    unfold F32.eqb, SFeqb, SFcompare.
    rewrite Z.compare_refl, Pos.compare_cont_refl. destruct s; reflexivity.
Qed.

Create HintDb fzero.

#[local] Hint Resolve zero_finite zmul_l zmul_r zadd zsub zneg one_finite
  radians_zero : fzero.

(** ** The step of a tick *)

Section Extras.

Context {P : Platform}.

Local Open Scope f32_scope.

(** The estimation step of a tick, by the two flags as the tick finds
    them. *)
Lemma estimate_branches st sens sp w :
  let m := measurements sens (desired_position sp w) in
  estimate st m =
  let pre := if B w reset_observer then reset_body m else m in
  if B w use_observer then observer_body pre else passthrough_body st pre.
Proof.
  intros m. unfold estimate.
  change (B m reset_observer) with (B w reset_observer).
  destruct (B w reset_observer); reflexivity.
Qed.

Lemma estimate_U st w v : U (estimate st w) v = U w v.
Proof.
  unfold estimate. destruct (B w reset_observer);
    destruct (B _ use_observer); reflexivity.
Qed.

Lemma estimate_power st w : power (estimate st w) = power w.
Proof.
  unfold estimate. destruct (B w reset_observer);
    destruct (B _ use_observer); reflexivity.
Qed.

Lemma control_body_power w :
  power (control_body w) =
  (U (control_body w) m_1, U (control_body w) m_2,
   U (control_body w) m_3, U (control_body w) m_4) :: power w.
Proof. cbn. reflexivity. Qed.

Lemma control_body_motor w v :
  In v motor_vars -> (0 <= U (control_body w) v <= UINT16_MAX)%Z.
Proof.
  intros Hv. cbn in Hv.
  repeat (destruct Hv as [<- | Hv]; [cbn; apply limit_range|]). contradiction.
Qed.

Lemma control_body_counters w v :
  existsb (uvar_eqb v) motor_vars = false -> U (control_body w) v = U w v.
Proof. intros Hv. destruct v; try discriminate; cbn; reflexivity. Qed.

Lemma observer_body_step w :
  let w' := observer_body w in
  let nx_err := k_flow * ((w.[v_x] / o_z_eq) - w.[w_y]) - w.[n_x] in
  let ny_err := k_flow * (w.[w_x] + (w.[v_y] / o_z_eq)) - w.[n_y] in
  let rerr := w.[o_z] - w.[r] in
  w'.[o_x] = w.[o_x] + dt * w.[v_x] /\
  w'.[o_y] = w.[o_y] + dt * w.[v_y] /\
  w'.[o_z] = w.[o_z] + dt * (w.[v_z] - lit "3.524731" * rerr) /\
  w'.[psi] = w.[psi] + dt * w.[w_z] /\
  w'.[theta] = w.[theta] + dt * (w.[w_y] - lit "0.029925" * nx_err) /\
  w'.[phi] = w.[phi] + dt * (w.[w_x] - ((- lit "0.024252") * ny_err)) /\
  w'.[v_x] = w.[v_x] + dt * (g * w'.[theta] - lit "0.322134" * nx_err) /\
  w'.[v_y] = w.[v_y] + dt * ((- g) * w'.[phi] - lit "0.317070" * ny_err) /\
  w'.[v_z] = w.[v_z] + dt * (w.[a_z] - g - lit "5.676619" * rerr).
Proof. cbv zeta. cbn. repeat split. Qed.

Lemma tick_observer_store sp sens st tick w :
  RATE_DO_EXECUTE ATTITUDE_RATE tick = true ->
  B w use_observer = true ->
  let m := measurements sens (desired_position sp w) in
  let pre := if B w reset_observer then reset_body m else m in
  forall v, existsb (fvar_eqb v) effort_vars = false ->
    (controllerAE483 sp sens st tick w).[v] = (observer_body pre).[v].
Proof.
  intros He Hu m pre v Hv. unfold controllerAE483. rewrite He. cbv zeta.
  rewrite (proj1 (actuate_other_vars sp _) v Hv).
  unfold estimate. fold m.
  change (B m reset_observer) with (B w reset_observer). fold pre.
  assert (Hp : B pre use_observer = true).
  { subst pre. destruct (B w reset_observer); exact Hu. }
  rewrite Hp. reflexivity.
Qed.

(** X1.  What a tick in observer mode does to the nine integrated variables,
    whatever the mode of the setpoint and the external state.  Each advances
    by [dt] times a derivative, in place and in the order of the source: the
    residuals and the derivatives of [o_x], [o_y], [o_z], [psi], [theta],
    [phi], [v_z] are taken on the values the tick found (zero when the reset
    flag was up), on the converted gyro, the scaled accelerometer and the
    buffered range and flow; the derivatives of [v_x] and [v_y] read the
    [theta] and [phi] that the tick has just written. *)
Theorem observer_tick_step sp sens st tick w :
  RATE_DO_EXECUTE ATTITUDE_RATE tick = true ->
  B w use_observer = true ->
  let w' := controllerAE483 sp sens st tick w in
  let prev v := if B w reset_observer then F32.zero else w.[v] in
  let wx := radians (Vec3.x (SensorData.gyro sens)) in
  let wy := radians (Vec3.y (SensorData.gyro sens)) in
  let wz := radians (Vec3.z (SensorData.gyro sens)) in
  let az := g * Vec3.z (SensorData.acc sens) in
  let nx_err := k_flow * ((prev v_x / o_z_eq) - wy) - w.[flow_dpixelx] in
  let ny_err := k_flow * (wx + (prev v_y / o_z_eq)) - w.[flow_dpixely] in
  let rerr := prev o_z - w.[tof_distance] in
  w'.[o_x] = prev o_x + dt * prev v_x /\
  w'.[o_y] = prev o_y + dt * prev v_y /\
  w'.[o_z] = prev o_z + dt * (prev v_z - lit "3.524731" * rerr) /\
  w'.[psi] = prev psi + dt * wz /\
  w'.[theta] = prev theta + dt * (wy - lit "0.029925" * nx_err) /\
  w'.[phi] = prev phi + dt * (wx - ((- lit "0.024252") * ny_err)) /\
  w'.[v_x] = prev v_x + dt * (g * w'.[theta] - lit "0.322134" * nx_err) /\
  w'.[v_y] = prev v_y + dt * ((- g) * w'.[phi] - lit "0.317070" * ny_err) /\
  w'.[v_z] = prev v_z + dt * (az - g - lit "5.676619" * rerr).
Proof.
  intros He Hu w' prev wx wy wz az nx_err ny_err rerr.
  pose proof (tick_observer_store sp sens st tick w He Hu) as Hst.
  cbv zeta in Hst. fold w' in Hst.
  set (m := measurements sens (desired_position sp w)) in *.
  set (pre := if B w reset_observer then reset_body m else m) in *.
  assert (Hprev : forall v, In v integrated -> pre.[v] = prev v).
  { intros v Hv. subst pre prev m. cbn in Hv.
    destruct (B w reset_observer);
      repeat (destruct Hv as [<- | Hv]; [reflexivity|]); contradiction. }
  assert (Hwx : pre.[w_x] = wx)
    by (subst pre m; destruct (B w reset_observer); reflexivity).
  assert (Hwy : pre.[w_y] = wy)
    by (subst pre m; destruct (B w reset_observer); reflexivity).
  assert (Hwz : pre.[w_z] = wz)
    by (subst pre m; destruct (B w reset_observer); reflexivity).
  assert (Haz : pre.[a_z] = az)
    by (subst pre m; destruct (B w reset_observer); reflexivity).
  assert (Hnx : pre.[n_x] = w.[flow_dpixelx])
    by (subst pre m; destruct (B w reset_observer); reflexivity).
  assert (Hny : pre.[n_y] = w.[flow_dpixely])
    by (subst pre m; destruct (B w reset_observer); reflexivity).
  assert (Hr : pre.[r] = w.[tof_distance])
    by (subst pre m; destruct (B w reset_observer); reflexivity).
  pose proof (observer_body_step pre) as Hstep. cbv zeta in Hstep.
  rewrite <- !Hst in Hstep by reflexivity.
  rewrite ?(Hprev o_x), ?(Hprev o_y), ?(Hprev o_z), ?(Hprev psi),
    ?(Hprev theta), ?(Hprev phi), ?(Hprev v_x), ?(Hprev v_y), ?(Hprev v_z)
    in Hstep by (cbn; tauto).
  rewrite Hwx, Hwy, Hwz, Haz, Hnx, Hny, Hr in Hstep.
  exact Hstep.
Qed.

(** X2.  A tick never writes the sensor buffers, the sample counters or the
    mode flag [use_observer].  When it executes it latches its inputs,
    whatever the mode of the setpoint and the two flags: the desired position
    from the setpoint, the rates from the gyro, [a_z] from the accelerometer,
    and [n_x], [n_y], [r] from the buffers as they are at the tick. *)
Theorem tick_frame_and_latch sp sens st tick w :
  let w' := controllerAE483 sp sens st tick w in
  (forall v, In v [tof_distance; flow_dpixelx; flow_dpixely] ->
             w'.[v] = w.[v]) /\
  (forall v, In v [tof_count; flow_count] -> U w' v = U w v) /\
  B w' use_observer = B w use_observer /\
  (RATE_DO_EXECUTE ATTITUDE_RATE tick = true ->
   w'.[o_x_des] = Vec3.x (Setpoint.position sp) /\
   w'.[o_y_des] = Vec3.y (Setpoint.position sp) /\
   w'.[o_z_des] = Vec3.z (Setpoint.position sp) /\
   w'.[w_x] = radians (Vec3.x (SensorData.gyro sens)) /\
   w'.[w_y] = radians (Vec3.y (SensorData.gyro sens)) /\
   w'.[w_z] = radians (Vec3.z (SensorData.gyro sens)) /\
   w'.[a_z] = g * Vec3.z (SensorData.acc sens) /\
   w'.[n_x] = w.[flow_dpixelx] /\ w'.[n_y] = w.[flow_dpixely] /\
   w'.[r] = w.[tof_distance]).
Proof.
  intros w'. subst w'. unfold controllerAE483.
  destruct (RATE_DO_EXECUTE ATTITUDE_RATE tick);
    [|repeat split; intros; discriminate].
  unfold actuate, estimate.
  set (m := measurements sens (desired_position sp w)).
  change (B m reset_observer) with (B w reset_observer).
  assert (Hb : B (if B w reset_observer then reset_body m else m) use_observer
               = B w use_observer)
    by (destruct (B w reset_observer); reflexivity).
  rewrite Hb. clear Hb.
  split; [|split; [|split]].
  - intros v Hv. cbn in Hv.
    destruct (stab_mode_eqb _ _); destruct (B w reset_observer);
      destruct (B w use_observer);
      repeat (destruct Hv as [<- | Hv]; [reflexivity|]); contradiction.
  - intros v Hv. cbn in Hv.
    destruct (stab_mode_eqb _ _); destruct (B w reset_observer);
      destruct (B w use_observer);
      repeat (destruct Hv as [<- | Hv]; [reflexivity|]); contradiction.
  - destruct (stab_mode_eqb _ _); destruct (B w reset_observer);
      destruct (B w use_observer) eqn:Hu; cbn; exact Hu.
  - intros _.
    destruct (stab_mode_eqb _ _); destruct (B w reset_observer);
      destruct (B w use_observer); repeat split.
Qed.

(** ** Runs *)

Lemma step_power e w :
  exists l, power (step e w) = l ++ power w /\
            Z.of_nat (List.length l) = count executes [e] /\ Forall cmd_ok l.
Proof.
  destruct e as [tof | flow | sp sens st tick].
  - exists []. repeat split. constructor.
  - exists []. repeat split. constructor.
  - unfold count. cbn [step filter executes]. unfold controllerAE483.
    destruct (RATE_DO_EXECUTE ATTITUDE_RATE tick).
    + cbv zeta.
      set (m := measurements sens (desired_position sp w)).
      assert (Hp : power (estimate st m) = power w)
        by (rewrite estimate_power; reflexivity).
      generalize dependent (estimate st m). intros e Hp.
      unfold actuate. destruct (stab_mode_eqb _ _).
      * exists [(0, 0, 0, 0)%Z]. cbn [powerSet power app List.length].
        split; [|split; [reflexivity|]].
        -- rewrite Hp. reflexivity.
        -- repeat constructor; unfold UINT16_MAX; lia.
      * exists [(U (control_body e) m_1, U (control_body e) m_2,
                 U (control_body e) m_3, U (control_body e) m_4)].
        split; [|split; [reflexivity|]].
        -- rewrite control_body_power, Hp. reflexivity.
        -- constructor; [|constructor].
           unfold cmd_ok.
           split; [|split; [|split]]; apply control_body_motor; cbn; tauto.
    + exists []. repeat split. constructor.
Qed.

(** X3.  Over any run of sensor callbacks and ticks the log of [powerSet]
    only grows, by exactly one call for each tick that executes (none for a
    callback or a skipped tick), and every call made has its four commands
    in 0..65535 - for every input, a NaN or an infinite estimate included. *)
Theorem run_power_log es : forall w,
  exists l, power (run es w) = l ++ power w /\
            Z.of_nat (List.length l) = count executes es /\ Forall cmd_ok l.
Proof.
  induction es as [| e es IH]; intros w.
  - exists []. repeat split. constructor.
  - cbn [run]. destruct (IH (step e w)) as (l2 & E2 & L2 & F2).
    destruct (step_power e w) as (l1 & E1 & L1 & F1).
    exists (l2 ++ l1). split; [|split].
    + rewrite E2, E1. apply app_assoc.
    + rewrite length_app, Nat2Z.inj_add, L2, L1. unfold count.
      cbn [filter]. destruct (executes e); cbn [List.length]; lia.
    + apply Forall_app. split; assumption.
Qed.

Lemma step_u16_ok e w : u16_ok w -> u16_ok (step e w).
Proof.
  intros H. destruct e as [tof | flow | sp sens st tick]; cbn [step].
  - intros v. destruct v; try apply H. apply incr16_range.
  - intros v. destruct v; try apply H. apply incr16_range.
  - unfold controllerAE483.
    destruct (RATE_DO_EXECUTE ATTITUDE_RATE tick); [|exact H].
    cbv zeta.
    set (m := measurements sens (desired_position sp w)).
    assert (Hu : forall v, U (estimate st m) v = U w v)
      by (intros v; rewrite estimate_U; reflexivity).
    generalize dependent (estimate st m). intros e Hu.
    unfold actuate. destruct (stab_mode_eqb _ _).
    + intros v. change (U (powerSet 0 0 0 0 e) v) with (U e v).
      rewrite Hu. apply H.
    + intros v. destruct (existsb (uvar_eqb v) motor_vars) eqn:Ev.
      * assert (Hin : In v motor_vars)
          by (destruct v; cbn; tauto || discriminate).
        pose proof (control_body_motor e v Hin). unfold UINT16_MAX in *. lia.
      * rewrite control_body_counters by exact Ev. rewrite Hu. apply H.
Qed.

(** X4.  The six [uint16_t] variables stay within 0..65535 through any run:
    the counters wrap, the motor commands are clamped. *)
Theorem run_u16_ok es : forall w, u16_ok w -> u16_ok (run es w).
Proof.
  induction es as [| e es IH]; intros w H; [exact H|].
  cbn [run]. apply IH, step_u16_ok, H.
Qed.

Lemma step_counters e w :
  U (step e w) tof_count
    = (if is_tof e then incr16 (U w tof_count) else U w tof_count) /\
  U (step e w) flow_count
    = (if is_flow e then incr16 (U w flow_count) else U w flow_count).
Proof.
  destruct e as [tof | flow | sp sens st tick]; cbn [step is_tof is_flow].
  - split; reflexivity.
  - split; reflexivity.
  - destruct (tick_frame_and_latch sp sens st tick w) as (_ & Hu & _).
    split; apply Hu; cbn; tauto.
Qed.

(** X5.  Through any run, each sample counter is its initial value plus the
    number of samples of its sensor in the run, modulo 2^16: the other
    sensor's samples and the ticks do not count. *)
Theorem run_counters es : forall w,
  (0 <= U w tof_count < 65536)%Z -> (0 <= U w flow_count < 65536)%Z ->
  U (run es w) tof_count = ((U w tof_count + count is_tof es) mod 65536)%Z /\
  U (run es w) flow_count = ((U w flow_count + count is_flow es) mod 65536)%Z.
Proof.
  unfold count.
  induction es as [| e es IH]; intros w Ht Hf.
  - cbn. rewrite !Z.add_0_r, !Z.mod_small by assumption. split; reflexivity.
  - cbn [run filter].
    destruct (step_counters e w) as [Et Ef].
    destruct (IH (step e w)) as [IHt IHf].
    + rewrite Et. destruct (is_tof e); [apply incr16_range | exact Ht].
    + rewrite Ef. destruct (is_flow e); [apply incr16_range | exact Hf].
    + rewrite IHt, IHf, Et, Ef. unfold incr16.
      split.
      * destruct (is_tof e); [|reflexivity].
        rewrite Z.add_mod_idemp_l by lia. f_equal. cbn [List.length]. lia.
      * destruct (is_flow e); [|reflexivity].
        rewrite Z.add_mod_idemp_l by lia. f_equal. cbn [List.length]. lia.
Qed.

Lemma step_quiet e w :
  executes e = false ->
  (forall v, ~ In v [tof_distance; flow_dpixelx; flow_dpixely] ->
             F (step e w) v = F w v) /\
  (forall v, In v motor_vars -> U (step e w) v = U w v) /\
  (forall b, B (step e w) b = B w b) /\
  power (step e w) = power w.
Proof.
  intros He. destruct e as [tof | flow | sp sens st tick]; cbn [step].
  - split; [|split; [|split]]; try reflexivity.
    + intros v Hv. destruct v; try reflexivity.
      exfalso. apply Hv. cbn. tauto.
    + intros v Hv. cbn in Hv.
      repeat (destruct Hv as [<- | Hv]; [reflexivity|]). contradiction.
  - split; [|split; [|split]]; try reflexivity.
    + intros v Hv. destruct v; try reflexivity;
        exfalso; apply Hv; cbn; tauto.
    + intros v Hv. cbn in Hv.
      repeat (destruct Hv as [<- | Hv]; [reflexivity|]). contradiction.
  - cbn in He. unfold controllerAE483. rewrite He. repeat split.
Qed.

(** X6.  A run in which no tick executes (sensor callbacks and skipped ticks
    only) changes the sensor buffers and counters and nothing else: the
    estimate, the setpoint, the effort, the motor commands and the log of
    [powerSet] stay, and so do the flags - a reset that was requested is
    still pending. *)
Theorem run_quiet es : forall w,
  forallb (fun e => negb (executes e)) es = true ->
  (forall v, ~ In v [tof_distance; flow_dpixelx; flow_dpixely] ->
             F (run es w) v = F w v) /\
  (forall v, In v motor_vars -> U (run es w) v = U w v) /\
  (forall b, B (run es w) b = B w b) /\
  power (run es w) = power w.
Proof.
  induction es as [| e es IH]; intros w Hq.
  - repeat split.
  - cbn [forallb] in Hq. apply andb_true_iff in Hq as [He Hes].
    apply negb_true_iff in He.
    cbn [run]. destruct (IH (step e w) Hes) as (IF & IU & IB & IP).
    destruct (step_quiet e w He) as (SF & SU & SB & SP).
    repeat split.
    + intros v Hv. rewrite IF by exact Hv. apply SF, Hv.
    + intros v Hv. rewrite IU by exact Hv. apply SU, Hv.
    + intros b. rewrite IB. apply SB.
    + rewrite IP. exact SP.
Qed.

(** ** The two modes *)

Lemma passthrough_body_reset st m :
  weq (passthrough_body st (reset_body m))
      (passthrough_body st (setB reset_observer false m)).
Proof. repeat split; intros v; destruct v; cbn; reflexivity. Qed.

Lemma pre_setB sp sens w b :
  weq (measurements sens (desired_position sp (setB reset_observer b w)))
      (setB reset_observer b (measurements sens (desired_position sp w))).
Proof. repeat split; intros v; destruct v; cbn; reflexivity. Qed.

Lemma setB_same w : 
  B w reset_observer = false -> weq w (setB reset_observer false w).
Proof.
  intros H. repeat split. intros v; destruct v; cbn; [reflexivity | exact H].
Qed.

(** X7.  In pass-through mode a requested reset is consumed without effect:
    the tick gives, variable by variable, what it gives with the flag down,
    and leaves the flag down. *)
Theorem passthrough_reset_consumed sp sens st tick w :
  RATE_DO_EXECUTE ATTITUDE_RATE tick = true ->
  B w use_observer = false ->
  let w' := controllerAE483 sp sens st tick w in
  weq w' (controllerAE483 sp sens st tick (setB reset_observer false w)) /\
  B w' reset_observer = false.
Proof.
  intros He Hu w'. subst w'. unfold controllerAE483. rewrite He. cbv zeta.
  split.
  - apply actuate_weq.
    rewrite !estimate_branches.
    change (B (setB reset_observer false w) use_observer)
      with (B w use_observer).
    change (B (setB reset_observer false w) reset_observer) with false.
    rewrite Hu. cbv zeta.
    set (m := measurements sens (desired_position sp w)).
    destruct (B w reset_observer) eqn:Hr.
    + eapply weq_trans; [apply passthrough_body_reset|].
      apply passthrough_body_weq, weq_sym, pre_setB.
    + apply passthrough_body_weq.
      eapply weq_trans; [|apply weq_sym, pre_setB].
      apply setB_same. exact Hr.
  - unfold actuate.
    destruct (stab_mode_eqb _ _); cbn -[estimate]; apply estimate_clears_flag.
Qed.

(** X8.  In observer mode the externally supplied state is not read: the
    whole result of a tick (estimate, effort, motor commands, the call of
    [powerSet]) is the same for any two of them. *)
Theorem observer_ignores_external_state sp sens st1 st2 tick w :
  B w use_observer = true ->
  controllerAE483 sp sens st1 tick w = controllerAE483 sp sens st2 tick w.
Proof.
  intros Hu. unfold controllerAE483.
  destruct (RATE_DO_EXECUTE ATTITUDE_RATE tick); [|reflexivity].
  cbv zeta. rewrite !estimate_branches, Hu. reflexivity.
Qed.

Lemma passthrough_tick_estimate sp sens st tick w :
  RATE_DO_EXECUTE ATTITUDE_RATE tick = true ->
  B w use_observer = false ->
  estimate_of (controllerAE483 sp sens st tick w)
  = passthrough_estimate st sens.
Proof.
  intros He Hu. unfold controllerAE483. rewrite He. cbv zeta.
  rewrite estimate_of_actuate, estimate_branches, Hu. cbv zeta.
  destruct (B w reset_observer); reflexivity.
Qed.

Lemma passthrough_identity_same sp sens st tick w :
  RATE_DO_EXECUTE ATTITUDE_RATE tick = true ->
  B w use_observer = false ->
  (forall s, cosf (S754_zero s) = lit "1.0") ->
  (forall s, sinf (S754_zero s) = S754_zero s) ->
  F32.is_zero (Attitude.roll (State.attitude st)) = true ->
  F32.is_zero (Attitude.pitch (State.attitude st)) = true ->
  F32.is_zero (Attitude.yaw (State.attitude st)) = true ->
  (forall v, In v [Vec3.x (State.velocity st); Vec3.y (State.velocity st);
                   Vec3.z (State.velocity st)] ->
             F32.valid v = true /\ F32.is_finite v = true) ->
  let w' := controllerAE483 sp sens st tick w in
  same_number (Vec3.x (State.velocity st)) w'.[v_x] /\
  same_number (Vec3.y (State.velocity st)) w'.[v_y] /\
  same_number (Vec3.z (State.velocity st)) w'.[v_z].
Proof.
  intros He Hu Hcos Hsin Hr Hp Hy Hv w'.
  pose proof (passthrough_tick_estimate sp sens st tick w He Hu) as Hest.
  fold w' in Hest.
  assert (Ex : w'.[v_x] = nth 6 (passthrough_estimate st sens) F32.zero)
    by (rewrite <- Hest; reflexivity).
  assert (Ey : w'.[v_y] = nth 7 (passthrough_estimate st sens) F32.zero)
    by (rewrite <- Hest; reflexivity).
  assert (Ez : w'.[v_z] = nth 8 (passthrough_estimate st sens) F32.zero)
    by (rewrite <- Hest; reflexivity).
  rewrite Ex, Ey, Ez. clear Ex Ey Ez Hest.
  cbn [nth passthrough_estimate].
  destruct (Hv _ (or_introl eq_refl)) as [Vx Fx].
  destruct (Hv _ (or_intror (or_introl eq_refl))) as [Vy Fy].
  destruct (Hv _ (or_intror (or_intror (or_introl eq_refl)))) as [Vz Fz].
  set (vx := Vec3.x (State.velocity st)) in *.
  set (vy := Vec3.y (State.velocity st)) in *.
  set (vz := Vec3.z (State.velocity st)) in *.
  destruct (is_zero_inv _ (radians_zero _ Hy)) as [sy Epsi].
  destruct (is_zero_inv _ (zneg _ (radians_zero _ Hp))) as [sp' Eth].
  destruct (is_zero_inv _ (radians_zero _ Hr)) as [sr Ephi].
  change (F32.neg (radians (Attitude.pitch (State.attitude st))))
    with (- radians (Attitude.pitch (State.attitude st))) in Eth.
  rewrite Epsi, Eth, Ephi, !Hcos, !Hsin.
  rewrite ?(mul_one_r vx), ?(mul_one_r vy), ?(mul_one_r vz) by assumption.
  assert (Zy : F32.is_zero (S754_zero sy) = true) by reflexivity.
  assert (Zp : F32.is_zero (S754_zero sp') = true) by reflexivity.
  assert (Zr : F32.is_zero (S754_zero sr) = true) by reflexivity.
  generalize dependent (S754_zero sy). intros zy _ Zy.
  generalize dependent (S754_zero sp'). intros zp _ Zp.
  generalize dependent (S754_zero sr). intros zr _ Zr.
  split; [|split].
  - apply same_sub_r; [|auto with fzero].
    apply same_add_r; [|auto 6 with fzero].
    apply same_number_refl, Fx.
  - apply same_add_r; [|auto 6 with fzero].
    rewrite one_mul_one, zero_add_one by auto 6 with fzero.
    rewrite (mul_one_r vy) by assumption.
    apply same_add_l; [|auto 8 with fzero].
    apply same_number_refl, Fy.
  - apply same_add_l; [apply same_number_refl, Fz|].
    auto 10 with fzero.
Qed.

(** X9.  Pass-through mode at zero roll, pitch and yaw, on a C library whose
    cosine of zero is 1 and whose sine of zero is zero: the estimated
    velocity is the external velocity, component by component.  Each
    compares equal to its source ([==] of C), and is the very same float
    unless that is a zero (whose sign the sums may change). *)
Theorem passthrough_identity_rotation sp sens st tick w :
  RATE_DO_EXECUTE ATTITUDE_RATE tick = true ->
  B w use_observer = false ->
  (forall s, cosf (S754_zero s) = lit "1.0") ->
  (forall s, sinf (S754_zero s) = S754_zero s) ->
  F32.is_zero (Attitude.roll (State.attitude st)) = true ->
  F32.is_zero (Attitude.pitch (State.attitude st)) = true ->
  F32.is_zero (Attitude.yaw (State.attitude st)) = true ->
  (forall v, In v [Vec3.x (State.velocity st); Vec3.y (State.velocity st);
                   Vec3.z (State.velocity st)] ->
             F32.valid v = true /\ F32.is_finite v = true) ->
  let w' := controllerAE483 sp sens st tick w in
  forall (i : fvar) (v : float),
    In (i, v) [(v_x, Vec3.x (State.velocity st));
               (v_y, Vec3.y (State.velocity st));
               (v_z, Vec3.z (State.velocity st))] ->
    F32.eqb w'.[i] v = true /\ (F32.is_zero v = false -> w'.[i] = v).
Proof.
  intros He Hu Hcos Hsin Hr Hp Hy Hv w' i v Hin.
  destruct (passthrough_identity_same sp sens st tick w
              He Hu Hcos Hsin Hr Hp Hy Hv) as (Sx & Sy & Sz).
  fold w' in Sx, Sy, Sz.
  cbn in Hin.
  destruct Hin as [E | [E | [E | []]]]; inversion E; subst i v;
    apply same_number_eqb; try assumption; apply Hv; cbn; tauto.
Qed.

End Extras.

(** ** The mixer and the callbacks *)

(** X10.  Without torque every rotor gets the same command, whatever the
    thrust is (a NaN or an infinity included): the clamped integer part of
    [122328.6 * f_z]. *)
Theorem equal_commands_without_torque w :
  F32.is_zero w.[tau_x] = true -> F32.is_zero w.[tau_y] = true ->
  F32.is_zero w.[tau_z] = true ->
  let w' := mix_body w in
  let c := limitUint16 (F32.to_int32 (lit "122328.6" * w.[f_z])%f32) in
  U w' m_1 = c /\ U w' m_2 = c /\ U w' m_3 = c /\ U w' m_4 = c /\
  power w' = (c, c, c, c) :: power w.
Proof.
  intros Hx Hy Hz w' c. subst w' c. cbn.
  destruct (is_zero_inv _ Hx) as [s1 ->].
  destruct (is_zero_inv _ Hy) as [s2 ->].
  destruct (is_zero_inv _ Hz) as [s3 ->].
  set (y := (lit "122328.6" * w.[f_z])%f32).
  destruct s1, s2, s3;
    repeat match goal with
    | |- context [F32.add ?z y] =>
        progress (let z' := eval vm_compute in z in change z with z')
    end;
    rewrite !to_int32_add_zero_l; repeat split.
Qed.

Lemma equal_commands_without_torque_witness :
  power (mix_body (init_world <| f_z := lit "0.5" |>))
  = [(61164, 61164, 61164, 61164)].
Proof.
  destruct (equal_commands_without_torque (init_world <| f_z := lit "0.5" |>))
    as (_ & _ & _ & _ & Hp).
  - reflexivity.
  - reflexivity.
  - reflexivity.
  - rewrite Hp. vm_compute. reflexivity.
Defined.

Lemma torques_when_level w :
  F32.is_finite w.[o_x] = true -> F32.is_finite w.[o_y] = true ->
  w.[o_x_des] = w.[o_x] -> w.[o_y_des] = w.[o_y] ->
  (forall v, In v rest_vars -> F32.is_zero w.[v] = true) ->
  let w' := effort_body w in
  F32.is_zero w'.[tau_x] = true /\ F32.is_zero w'.[tau_y] = true /\
  F32.is_zero w'.[tau_z] = true.
Proof.
  intros Fx Fy Dx Dy Hrest w'. subst w'. cbn.
  rewrite Dx, Dy, !sub_self by assumption.
  destruct (is_zero_inv _ (Hrest psi ltac:(cbn; tauto))) as [s1 ->].
  destruct (is_zero_inv _ (Hrest theta ltac:(cbn; tauto))) as [s2 ->].
  destruct (is_zero_inv _ (Hrest phi ltac:(cbn; tauto))) as [s3 ->].
  destruct (is_zero_inv _ (Hrest v_x ltac:(cbn; tauto))) as [s4 ->].
  destruct (is_zero_inv _ (Hrest v_y ltac:(cbn; tauto))) as [s5 ->].
  destruct (is_zero_inv _ (Hrest w_x ltac:(cbn; tauto))) as [s7 ->].
  destruct (is_zero_inv _ (Hrest w_y ltac:(cbn; tauto))) as [s8 ->].
  destruct (is_zero_inv _ (Hrest w_z ltac:(cbn; tauto))) as [s9 ->].
  repeat split.
  - destruct s3, s5, s7; vm_compute; reflexivity.
  - destruct s2, s4, s8; vm_compute; reflexivity.
  - destruct s1, s9; vm_compute; reflexivity.
Qed.

(** X11.  Level and at rest over the desired x and y, whatever the altitude
    and the desired altitude are: the torques are zero, the thrust is
    [-0.11471886 * (o_z - o_z_des) - 0.09147906 * v_z + 0.35217900], and the
    four rotors get the same command. *)
Theorem altitude_error_equal_commands sp w :
  Mode.z (Setpoint.mode sp) <> modeDisable ->
  F32.is_finite w.[o_x] = true -> F32.is_finite w.[o_y] = true ->
  w.[o_x_des] = w.[o_x] -> w.[o_y_des] = w.[o_y] ->
  (forall v, In v rest_vars -> F32.is_zero w.[v] = true) ->
  let w' := actuate sp w in
  let c := limitUint16 (F32.to_int32 (lit "122328.6" * w'.[f_z])%f32) in
  F32.is_zero w'.[tau_x] = true /\ F32.is_zero w'.[tau_y] = true /\
  F32.is_zero w'.[tau_z] = true /\
  w'.[f_z] = ((- lit "0.11471886") * (w.[o_z] - w.[o_z_des])
              - lit "0.09147906" * w.[v_z] + lit "0.35217900")%f32 /\
  power w' = (c, c, c, c) :: power w.
Proof.
  intros Hm Fx Fy Dx Dy Hrest w' c.
  assert (Hw : w' = mix_body (effort_body w)).
  { subst w'. unfold actuate.
    destruct (Mode.z (Setpoint.mode sp)); try reflexivity. contradiction. }
  destruct (torques_when_level w Fx Fy Dx Dy Hrest) as (Tx & Ty & Tz).
  destruct (equal_commands_without_torque (effort_body w) Tx Ty Tz)
    as (_ & _ & _ & _ & Mp).
  assert (Hframe : forall v, w'.[v] = (effort_body w).[v])
    by (intros v; rewrite Hw; reflexivity).
  subst c. rewrite !Hframe.
  repeat split; try assumption.
  rewrite Hw, Mp. reflexivity.
Qed.

Lemma altitude_error_equal_commands_witness :
  power (actuate sp_hover w_below) = [(50098, 50098, 50098, 50098)].
Proof.
  destruct (altitude_error_equal_commands sp_hover w_below)
    as (_ & _ & _ & _ & Hp).
  - cbn. discriminate.
  - reflexivity.
  - reflexivity.
  - reflexivity.
  - reflexivity.
  - intros v Hv. cbn in Hv.
    repeat (destruct Hv as [<- | Hv]; [reflexivity|]). contradiction.
  - rewrite Hp. vm_compute. reflexivity.
Defined.

(** X12.  The two sensor callbacks commute, and of two samples of one sensor
    the later one is the one buffered. *)
Theorem callbacks_compose tof tof' flow flow' w :
  weq (ae483UpdateWithTOF tof (ae483UpdateWithFlow flow w))
      (ae483UpdateWithFlow flow (ae483UpdateWithTOF tof w)) /\
  (ae483UpdateWithTOF tof' (ae483UpdateWithTOF tof w)).[tof_distance]
  = Tof.distance tof' /\
  (ae483UpdateWithFlow flow' (ae483UpdateWithFlow flow w)).[flow_dpixelx]
  = Flow.dpixelx flow' /\
  (ae483UpdateWithFlow flow' (ae483UpdateWithFlow flow w)).[flow_dpixely]
  = Flow.dpixely flow'.
Proof.
  split; [|repeat split].
  repeat split; intros v; destruct v; reflexivity.
Qed.

(** ** Closed instances of the further properties *)

Lemma observer_tick_step_witness :
  (controllerAE483 sp0 sensors0 state0 0 w_obs_flow).[o_x] = F32.zero.
Proof.
  pose proof (observer_tick_step sp0 sensors0 state0 0 w_obs_flow
                eq_refl eq_refl) as H.
  cbv zeta in H. destruct H as (H & _).
  rewrite H. vm_compute. reflexivity.
Defined.

Lemma tick_frame_and_latch_witness :
  (controllerAE483 sp_hover sensors0 state0 0 w_obs_flow).[n_x]
  = w_obs_flow.[flow_dpixelx].
Proof.
  pose proof (tick_frame_and_latch sp_hover sensors0 state0 0 w_obs_flow) as H.
  cbv zeta in H. destruct H as (_ & _ & _ & H).
  destruct (H eq_refl) as (_ & _ & _ & _ & _ & _ & _ & Hn & _).
  exact Hn.
Defined.

Lemma run_u16_ok_witness : u16_ok (run es_sample init_world).
Proof.
  apply run_u16_ok. intros v. destruct v; cbn; lia.
Defined.

Lemma run_counters_witness :
  U (run es_sample init_world) tof_count = 2 /\
  U (run es_sample init_world) flow_count = 1.
Proof.
  destruct (run_counters es_sample init_world) as [Ht Hf].
  - cbn. lia.
  - cbn. lia.
  - rewrite Ht, Hf. vm_compute. split; reflexivity.
Defined.

Lemma run_quiet_witness :
  power (run es_quiet w_obs_z1_reset) = power w_obs_z1_reset /\
  B (run es_quiet w_obs_z1_reset) reset_observer = true.
Proof.
  destruct (run_quiet es_quiet w_obs_z1_reset) as (_ & _ & Hb & Hp).
  - vm_compute. reflexivity.
  - split; [exact Hp | rewrite Hb; reflexivity].
Defined.

Lemma passthrough_reset_consumed_witness :
  B (controllerAE483 sp0 sensors0 state_x2 0
       (setB reset_observer true w_prev_x1)) reset_observer = false.
Proof.
  pose proof (passthrough_reset_consumed sp0 sensors0 state_x2 0
                (setB reset_observer true w_prev_x1) eq_refl eq_refl) as H.
  cbv zeta in H. destruct H as (_ & H). exact H.
Defined.

Lemma observer_ignores_external_state_witness :
  controllerAE483 sp0 sensors0 state0 0 w_obs_z1
  = controllerAE483 sp0 sensors0 state_x2 0 w_obs_z1.
Proof.
  exact (observer_ignores_external_state sp0 sensors0 state0 state_x2 0
           w_obs_z1 eq_refl).
Defined.

Lemma passthrough_identity_rotation_witness :
  (controllerAE483 sp0 sensors0 state_moving 0 init_world).[v_y]
  = F32.neg (lit "2.0").
Proof.
  assert (Hv : forall v,
             In v [Vec3.x (State.velocity state_moving);
                   Vec3.y (State.velocity state_moving);
                   Vec3.z (State.velocity state_moving)] ->
             F32.valid v = true /\ F32.is_finite v = true).
  { intros v Hv. cbn in Hv.
    repeat (destruct Hv as [<- | Hv]; [split; reflexivity|]). contradiction. }
  pose proof (passthrough_identity_rotation sp0 sensors0 state_moving 0
                init_world eq_refl eq_refl (fun s => eq_refl)
                (fun s => eq_refl) eq_refl eq_refl eq_refl Hv) as H.
  cbv zeta in H.
  destruct (H v_y (F32.neg (lit "2.0"))) as (_ & H2).
  - right. left. reflexivity.
  - apply H2. reflexivity.
Defined.
